(** * Google login with Passport: a model of [starter-code/app]

    The application is [app/app.js] (two variants of it are kept in the
    sources) together with the Mongoose model [app/models/user.js].  It is
    glue code: every step is a call into Express, Passport, the Google
    OAuth2 strategy or Mongoose.  The development therefore has two layers.

    - The library layer ([JS], [Mongoose], [Passport], [Express]) states
      the behaviour of the library entry points the application calls, as
      executable functions over an explicit store.
    - The application layer ([App]) follows [app.js] and [models/user.js]
      line by line on top of it.  The two variants of [app.js] differ in
      the callback URL, in the handler of [/logout], and in that only the
      first registers functions to serialize and deserialize the user.

    State is threaded explicitly: the User collection, the session store,
    and, for the request being served, [req.user] and the response. *)

From Stdlib Require Import Ascii String List Bool Arith Lia.
From stdpp Require Import base option list gmap strings.

Local Open Scope string_scope.

(** ** Documents *)

Module Document.

(** A Mongoose document: its [_id] and the values stored at its paths.
    Paths are the dotted names Mongoose uses ([google.id], ...). *)
Record document : Type := Doc {
  doc_id : nat;
  doc_paths : list (string * string)
}.

Fixpoint assoc {A : Type} (k : string) (l : list (string * A)) : option A :=
  match l with
  | [] => None
  | (k', v) :: rest => if String.eqb k k' then Some v else assoc k rest
  end.

Definition get_path (d : document) (p : string) : option string :=
  assoc p (doc_paths d).

End Document.
Export Document.

(** ** JavaScript values, errors and scopes *)

Module JS.

(** The values the program passes around as "the user": [undefined],
    [null], a boolean, or a document of the User model. *)
Inductive value : Type :=
| VUndefined
| VNull
| VBool (b : bool)
| VObj (d : document).

(** JavaScript truthiness ([if (x)], [!x], [x || y]); Handlebars'
    [#if] agrees with it on these values. *)
Definition truthy (v : value) : bool :=
  match v with
  | VObj _ => true
  | VBool b => b
  | VUndefined | VNull => false
  end.

Inductive error : Type :=
| ReferenceError (name : string)
| TypeError (msg : string)
| MongoError (msg : string)
| TokenError (msg : string)
| InternalOAuthError (msg : string)
| AuthorizationError (code : string)
| Error (msg : string).

(** What an identifier denotes inside a route handler: the request and
    response objects and the continuation Express passes in, a
    module-level binding, or [undefined]. *)
Inductive jsref : Type :=
| ref_req
| ref_res
| ref_next
| ref_undefined
| ref_module (name : string).

(** Calling a function binds its formal parameters to the actual
    arguments by position; a missing argument is [undefined], an extra
    one is dropped. *)
Fixpoint bind_params (params : list string) (args : list jsref)
  : list (string * jsref) :=
  match params with
  | [] => []
  | p :: ps =>
      match args with
      | [] => (p, ref_undefined) :: bind_params ps []
      | a :: rest => (p, a) :: bind_params ps rest
      end
  end.

(** Names every CommonJS module sees, and Node's usual globals. *)
Definition node_scope : list string :=
  [ "exports"; "require"; "module"; "__filename"; "__dirname";
    "global"; "process"; "console"; "Buffer";
    "setTimeout"; "setInterval"; "setImmediate";
    "clearTimeout"; "clearInterval"; "clearImmediate" ].

(** Resolution of an identifier: the activation record first, then the
    enclosing module scope, then Node's; otherwise the reference fails. *)
Definition resolve (activation : list (string * jsref))
           (module_scope : list string) (x : string) : error + jsref :=
  match assoc x activation with
  | Some r => inr r
  | None =>
      if existsb (String.eqb x) (module_scope ++ node_scope)%list
      then inr (ref_module x)
      else inl (ReferenceError x)
  end.

End JS.
Export JS.

(** ** HTTP requests and responses *)

Module Http.

(** A GET request as the router sees it: the normalised path, the session
    the cookie designates, and the two query parameters the OAuth2
    strategy reads ([req.query.code], [req.query.error]). *)
Record Request : Type := {
  path : string;
  sid : nat;
  query_code : option string;
  query_error : option string
}.

(** Parameters of the provider's authorization URL. *)
Record AuthorizeParams : Type := {
  response_type : string;
  redirect_uri : string;
  scope_param : option string;
  client_id : string
}.

Inductive Location : Type :=
| url (target : string)
| authorize_url (params : AuthorizeParams).

Inductive Response : Type :=
| redirect (status : nat) (location : Location)
| render (view : string) (locals : list (string * value))
| send_status (code : nat)
| error_page (e : error)
| pending.

(** How a middleware hands over: [next()], [next(err)], or the response
    has been ended. *)
Inductive control : Type :=
| next
| next_err (e : error)
| finished.

End Http.
Export Http.

(** ** The store and the outside world *)

Module Profile.
(** The profile the Google strategy hands to the verify callback. *)
Record t : Type := {
  id : string;
  displayName : string;
  emails : list string
}.
End Profile.

(** What the provider answers when an authorization code is exchanged. *)
Inductive exchange : Type :=
| token_refused (msg : string)
| profile_unavailable (msg : string)
| granted (accessToken refreshToken : string) (profile : Profile.t).

(** Everything outside the process that a request depends on: the
    provider, and whether the database fails the next query or save. *)
Record World : Type := {
  provider : string -> exchange;
  find_fault : option error;
  save_fault : option error
}.

(** Persistent state: the User collection in insertion order, the next
    fresh [_id], and for each session the value kept under
    [session.passport.user]. *)
Record State : Type := {
  users : list document;
  next_id : nat;
  sessions : gmap nat value
}.

(** State while one request is served: the store, the request, [req.user]
    and the response once it has been sent. *)
Record Ctx : Type := {
  app : State;
  req : Request;
  user : value;
  res : option Response
}.

Definition set_app (f : State -> State) (c : Ctx) : Ctx :=
  {| app := f (app c); req := req c; user := user c; res := res c |}.
Definition set_user (u : value) (c : Ctx) : Ctx :=
  {| app := app c; req := req c; user := u; res := res c |}.
Definition set_res (r : Response) (c : Ctx) : Ctx :=
  {| app := app c; req := req c; user := user c; res := Some r |}.

Definition set_users (f : list document -> list document) (s : State) : State :=
  {| users := f (users s); next_id := next_id s; sessions := sessions s |}.
Definition set_next_id (n : nat) (s : State) : State :=
  {| users := users s; next_id := n; sessions := sessions s |}.
Definition set_sessions (f : gmap nat value -> gmap nat value) (s : State) : State :=
  {| users := users s; next_id := next_id s; sessions := f (sessions s) |}.

(** ** Computations: a reader over the world, state, and exceptions *)

Inductive result (A : Type) : Type :=
| Return (a : A)
| Throw (e : error).
Arguments Return {A} a.
Arguments Throw {A} e.

Definition M (A : Type) : Type := World -> Ctx -> result A * Ctx.

Definition ret {A : Type} (a : A) : M A := fun _ c => (Return a, c).
Definition throw {A : Type} (e : error) : M A := fun _ c => (Throw e, c).
Definition bind {A B : Type} (m : M A) (k : A -> M B) : M B :=
  fun w c =>
    match m w c with
    | (Return a, c') => k a w c'
    | (Throw e, c') => (Throw e, c')
    end.
Definition world : M World := fun w c => (Return w, c).
Definition get_ctx : M Ctx := fun _ c => (Return c, c).
Definition modify (f : Ctx -> Ctx) : M unit := fun _ c => (Return tt, f c).

Definition is_Some_bool {A : Type} (o : option A) : bool :=
  match o with Some _ => true | None => false end.

Notation "'let*' x ':=' m 'in' k" := (bind m (fun x => k))
  (at level 10, x name, m at level 100, k at level 200).

(** ** Mongoose: models, strict schemas, and the find-or-create plugin *)

Module Mongoose.

(** A schema is the list of the paths it declares. *)
Definition Schema : Type := list string.

Record Model : Type := { schema : Schema }.

(** Strict mode, the default of [new Schema(...)]: a value given for a
    path the schema does not declare is not stored. *)
Definition strict (s : Schema) (obj : list (string * string))
  : list (string * string) :=
  List.filter (fun kv => existsb (String.eqb (fst kv)) s) obj.

(** A document satisfies a condition object when it holds the given
    value at each of the given paths. *)
Definition matches (conditions : list (string * string)) (d : document) : bool :=
  forallb (fun kv =>
             match get_path d (fst kv) with
             | Some stored => String.eqb stored (snd kv)
             | None => false
             end) conditions.

(** [Model.findOne(conditions, callback)]: the first matching document,
    [null] when there is none.  The conditions reach the database as
    they are written: a path the schema does not declare is not removed
    from a query. *)
Definition findOne {R : Type} (m : Model) (conditions : list (string * string))
           (callback : option error -> value -> M R) : M R :=
  let* w := world in
  match find_fault w with
  | Some e => callback (Some e) VUndefined
  | None =>
      let* c := get_ctx in
      match List.find (matches conditions) (users (app c)) with
      | Some d => callback None (VObj d)
      | None => callback None VNull
      end
  end.

(** [new Model(obj)]: a fresh document holding the declared paths of
    [obj]. *)
Definition new (m : Model) (obj : list (string * string)) : M document :=
  let* c := get_ctx in
  let n := next_id (app c) in
  let* _ := modify (set_app (set_next_id (S n))) in
  ret (Doc n (strict (schema m) obj)).

(** [doc.save(callback)] for a document made by [new]: it is inserted. *)
Definition save {R : Type} (d : document) (callback : option error -> M R) : M R :=
  let* w := world in
  match save_fault w with
  | Some e => callback (Some e)
  | None =>
      let* _ := modify (set_app (set_users (fun l => (l ++ [d])%list))) in
      callback None
  end.

(** The static added by [schema.plugin(findOrCreate)], called with a
    condition object and a callback (no extra document, no options):
    [callback(err, result, created)]. *)
Definition findOrCreate {R : Type} (self : Model)
           (conditions : list (string * string))
           (callback : option error -> value -> bool -> M R) : M R :=
  findOne self conditions (fun err result =>
    if is_Some_bool err || truthy result
    then callback err result false
    else
      let* obj := new self conditions in
      save obj (fun err => callback err (VObj obj) true)).

End Mongoose.

(** ** Passport: serializers, strategies, [authenticate] *)

Module Passport.

(** The options object given to [passport.authenticate]. *)
Record AuthenticateOptions : Type := {
  scope : option string;
  successRedirect : option string;
  failureRedirect : option string
}.

(** What a strategy ends with: [this.success(user)], [this.fail()],
    [this.redirect(url)], [this.pass()] or [this.error(err)]. *)
Inductive action : Type :=
| success (user : value)
| fail
| redirect_to (location : Location)
| pass
| error (e : JS.error).

Definition Strategy : Type := AuthenticateOptions -> M action.

Definition Serializer : Type :=
  forall R : Type, value -> (option JS.error -> value -> R) -> R.

(** The functions registered with [passport.serializeUser(fn)] and
    [passport.deserializeUser(fn)], in registration order, and the
    strategies registered with [passport.use]. *)
Record Authenticator : Type := {
  serializers : list Serializer;
  deserializers : list Serializer;
  strategies : list (string * Strategy)
}.

(** The walk of [Authenticator.serializeUser] through the registered
    functions: the result of a function is taken when it reports an error
    or yields something; otherwise the next function is tried, and
    serialization fails when none is left. *)
Fixpoint serialize_chain {R : Type} (stack : list Serializer) (u : value)
         (done : option JS.error -> value -> M R)
         (err : option JS.error) (obj : value) : M R :=
  if is_Some_bool err || truthy obj then done err obj
  else
    match stack with
    | [] => done (Some (Error "Failed to serialize user into session")) VUndefined
    | fn :: rest => fn (M R) u (fun e o => serialize_chain rest u done e o)
    end.

(** [Authenticator.serializeUser(user, req, done)]. *)
Definition serializeUser {R : Type} (p : Authenticator) (u : value)
           (done : option JS.error -> value -> M R) : M R :=
  serialize_chain (serializers p) u done None VUndefined.

(** The walk of [Authenticator.deserializeUser], likewise; a function
    that yields [null] or [false] invalidates the session user. *)
Fixpoint deserialize_chain {R : Type} (stack : list Serializer) (obj : value)
         (done : option JS.error -> value -> M R)
         (err : option JS.error) (u : value) : M R :=
  if is_Some_bool err || truthy u then done err u
  else
    match u with
    | VNull | VBool false => done None (VBool false)
    | _ =>
        match stack with
        | [] =>
            done (Some (Error "Failed to deserialize user out of session"))
                 VUndefined
        | fn :: rest => fn (M R) obj (fun e x => deserialize_chain rest obj done e x)
        end
    end.

(** [Authenticator.deserializeUser(obj, req, done)]. *)
Definition deserializeUser {R : Type} (p : Authenticator) (obj : value)
           (done : option JS.error -> value -> M R) : M R :=
  deserialize_chain (deserializers p) obj done None VUndefined.

(** [req.logIn(user, done)]. *)
Definition logIn {R : Type} (p : Authenticator) (u : value)
           (done : option JS.error -> M R) : M R :=
  let* _ := modify (set_user u) in
  serializeUser p u (fun err obj =>
    match err with
    | Some e =>
        let* _ := modify (set_user VNull) in
        done (Some e)
    | None =>
        let* c := get_ctx in
        let* _ := modify (set_app (set_sessions (insert (sid (req c)) obj))) in
        done None
    end).

(** [req.logout()]. *)
Definition logOut : M unit :=
  let* _ := modify (set_user VNull) in
  let* c := get_ctx in
  modify (set_app (set_sessions (delete (sid (req c))))).

Definition res_redirect (target : Location) : M unit :=
  modify (set_res (redirect 302 target)).

(** The middleware returned by [passport.authenticate(name, options)]. *)
Definition authenticate (p : Authenticator) (name : string)
           (options : AuthenticateOptions) : M control :=
  match assoc name (strategies p) with
  | None => ret (next_err (Error "Unknown authentication strategy"))
  | Some strategy =>
      let* a := strategy options in
      match a with
      | success u =>
          logIn p u (fun err =>
            match err with
            | Some e => ret (next_err e)
            | None =>
                match successRedirect options with
                | Some target =>
                    let* _ := res_redirect (url target) in
                    ret finished
                | None => ret next
                end
            end)
      | fail =>
          match failureRedirect options with
          | Some target =>
              let* _ := res_redirect (url target) in
              ret finished
          | None =>
              let* _ := modify (set_res (send_status 401)) in
              ret finished
          end
      | redirect_to location =>
          let* _ := res_redirect location in
          ret finished
      | pass => ret next
      | error e => ret (next_err e)
      end
  end.

(** The middleware returned by [passport.session()]: it restores
    [req.user] from the session. *)
Definition session (p : Authenticator) : M control :=
  let* c := get_ctx in
  match sessions (app c) !! sid (req c) with
  | Some su =>
      if truthy su then
        deserializeUser p su (fun err u =>
          match err with
          | Some e => ret (next_err e)
          | None =>
              if negb (truthy u) then
                let* _ := modify (set_app (set_sessions (delete (sid (req c))))) in
                ret next
              else
                let* _ := modify (set_user u) in
                ret next
          end)
      else ret next
  | None => ret next
  end.

(** *** The OAuth2 strategy of [passport-google-oauth] *)

Record StrategyOptions : Type := {
  clientID : string;
  clientSecret : string;
  callbackURL : string
}.

Definition Verify : Type :=
  string -> string -> Profile.t ->
  (option JS.error -> value -> M action) -> M action.

(** A query parameter counts when it is present and not empty. *)
Definition given (o : option string) : option string :=
  match o with
  | Some s => if String.eqb s "" then None else Some s
  | None => None
  end.

(** [OAuth2Strategy.prototype.authenticate(req, options)]: an [error]
    parameter ends the attempt; a [code] parameter is exchanged for
    tokens and a profile, which go to the verify callback; a request
    with neither is sent to the provider's authorization page. *)
Definition OAuth2Strategy (o : StrategyOptions) (verify : Verify) : Strategy :=
  fun options =>
    let* c := get_ctx in
    match given (query_error (req c)) with
    | Some e =>
        if String.eqb e "access_denied" then ret fail
        else ret (error (AuthorizationError e))
    | None =>
        match given (query_code (req c)) with
        | Some code =>
            let* w := world in
            match provider w code with
            | token_refused msg => ret (error (TokenError msg))
            | profile_unavailable msg => ret (error (InternalOAuthError msg))
            | granted accessToken refreshToken profile =>
                verify accessToken refreshToken profile (fun err u =>
                  match err with
                  | Some e => ret (error e)
                  | None =>
                      if negb (truthy u) then ret fail
                      else ret (success u)
                  end)
            end
        | None =>
            ret (redirect_to (authorize_url {|
                   response_type := "code";
                   redirect_uri := callbackURL o;
                   scope_param := scope options;
                   client_id := clientID o |}))
        end
    end.

End Passport.

(** ** Express: route handlers, the middleware stack, the final handler *)

Module Express.

(** A JavaScript function used as a route handler: its formal
    parameters, and its body, which reaches every variable through the
    scope it is given. *)
Record jsfunction : Type := {
  params : list string;
  body : (string -> M jsref) -> M unit
}.

Definition call (module_scope : list string) (f : jsfunction)
           (args : list jsref) : M unit :=
  body f (fun x =>
    match resolve (bind_params (params f) args) module_scope x with
    | inr r => ret r
    | inl e => throw e
    end).

(** Methods of the request and response objects the handlers use. *)
Definition req_logout (r : jsref) : M unit :=
  match r with
  | ref_req => Passport.logOut
  | ref_undefined => throw (TypeError "Cannot read property 'logout' of undefined")
  | _ => throw (TypeError "req.logout is not a function")
  end.

Definition req_user (r : jsref) : M value :=
  match r with
  | ref_req =>
      let* c := get_ctx in
      ret (user c)
  | ref_undefined => throw (TypeError "Cannot read property 'user' of undefined")
  | _ => ret VUndefined
  end.

Definition res_redirect (r : jsref) (target : string) : M unit :=
  match r with
  | ref_res => Passport.res_redirect (url target)
  | ref_undefined => throw (TypeError "Cannot read property 'redirect' of undefined")
  | _ => throw (TypeError "res.redirect is not a function")
  end.

Definition res_render (r : jsref) (view : string)
           (locals : list (string * value)) : M unit :=
  match r with
  | ref_res => modify (set_res (render view locals))
  | ref_undefined => throw (TypeError "Cannot read property 'render' of undefined")
  | _ => throw (TypeError "res.render is not a function")
  end.

(** Express calls a route handler as [fn(req, res, next)] and turns an
    exception it throws into [next(err)]. *)
Definition handler (module_scope : list string) (f : jsfunction) : M control :=
  fun w c =>
    match call module_scope f [ref_req; ref_res; ref_next] w c with
    | (Return _, c') => (Return finished, c')
    | (Throw e, c') => (Return (next_err e), c')
    end.

Inductive layer : Type :=
| use (m : M control)
| get (route : string) (m : M control).

(** Route paths are matched the way Express does by default: letter case
    is ignored and so is one trailing slash. *)
Definition lower (c : Ascii.ascii) : Ascii.ascii :=
  let n := Ascii.nat_of_ascii c in
  if Nat.leb 65 n && Nat.leb n 90 then Ascii.ascii_of_nat (n + 32) else c.

Fixpoint lowercase (s : string) : string :=
  match s with
  | EmptyString => EmptyString
  | String c rest => String (lower c) (lowercase rest)
  end.

Fixpoint strip_slash (s : string) : string :=
  match s with
  | EmptyString => EmptyString
  | String c rest =>
      match rest with
      | EmptyString => if Ascii.eqb c "/"%char then EmptyString else s
      | String _ _ => String c (strip_slash rest)
      end
  end.

Definition normal (p : string) : string := lowercase (strip_slash p).

Definition route_matches (route p : string) : bool :=
  String.eqb (normal p) (normal route).

Definition layer_matches (l : layer) (rq : Request) : bool :=
  match l with
  | use _ => true
  | get route _ => route_matches route (path rq)
  end.

Definition layer_handle (l : layer) : M control :=
  match l with
  | use m => m
  | get _ m => m
  end.

(** The stack is walked in registration order; a layer that calls
    [next()] passes on to the following matching layer. *)
Fixpoint dispatch (stack : list layer) : M control :=
  match stack with
  | [] => ret next
  | l :: rest =>
      let* c := get_ctx in
      if layer_matches l (req c) then
        let* k := layer_handle l in
        match k with
        | next => dispatch rest
        | _ => ret k
        end
      else dispatch rest
  end.

(** One request against the stack.  Without a response from the stack
    the final handler answers: 404 when every layer passed, and the
    error page (a 5xx response reporting the error) when an error was
    passed on, since no error-handling middleware is registered. *)
Definition serve (stack : list layer) (st : State) (rq : Request) (w : World)
  : Response * State :=
  let '(r, c) :=
    dispatch stack w {| app := st; req := rq; user := VUndefined; res := None |} in
  (match res c with
   | Some response => response
   | None =>
       match r with
       | Return next => send_status 404
       | Return (next_err e) => error_page e
       | Throw e => error_page e
       | Return finished => pending
       end
   end, app c).

End Express.

(** ** The view *)

Module View.

Inductive html : Type :=
| h1 (text : string)
| h2 (text : string)
| pre (payload : option string)
| a (href text : string).

(** [user.<name>] inside the template. *)
Definition property (v : value) (name : string) : option string :=
  match v with
  | VObj d => get_path d name
  | _ => None
  end.

(** Modelled from the spec: the view file [views/layout.hbs] is not among
    the sources.  Its body follows section 4.3 of the specification (one
    input [user]; a logout link and the account payload when it is
    truthy, a login link otherwise) and the listing of the template in
    [readme.md]. *)
Definition layout (locals : list (string * value)) : list html :=
  let u := default VUndefined (assoc "user" locals) in
  h1 "GOOGLE LOGIN USING PASSPORT" ::
  (if truthy u
   then [ h2 " Below is the data sent by google";
          pre (property u "fb");
          a "/logout" "Logout" ]
   else [ a "/auth/google" "Login with Google" ]).

Definition views (name : string) : option (list (string * value) -> list html) :=
  if String.eqb name "layout" then Some layout else None.

(** What the browser receives for a rendered response. *)
Definition page (r : Response) : option (list html) :=
  match r with
  | render view locals =>
      match views view with
      | Some template => Some (template locals)
      | None => None
      end
  | _ => None
  end.

End View.

(** ** The application: [models/user.js] and [app.js] *)

Module App.

Import Mongoose Passport Express.

(** [app-env.js] is not tracked; its two exports are parameters. *)
Record AppEnv : Type := {
  GOOGLE_CLIENT_ID : string;
  GOOGLE_CLIENT_SECRET : string
}.

(** The two variants of [app.js] kept in the sources. *)
Inductive variant : Type :=
| first
| second.

(** [models/user.js] *)
Definition userSchema : Schema :=
  [ "google.id"; "google.access_token"; "google.email" ].

Definition User : Model := {| schema := userSchema |}.

(** [passport.serializeUser((user, done) => { done(null, user); })] *)
Definition serializeUser {U R : Type} (u : U) (done : option JS.error -> U -> R) : R :=
  done None u.

(** [passport.deserializeUser((user, done) => { done(null, user); })] *)
Definition deserializeUser {U R : Type} (u : U) (done : option JS.error -> U -> R) : R :=
  done None u.

Section Variant.

Variable ENV : AppEnv.
Variable v : variant.

Definition googleClientKey : string := GOOGLE_CLIENT_ID ENV.
Definition googleClientSecret : string := GOOGLE_CLIENT_SECRET ENV.

(** The verify callback given to [new GoogleStrategy]. *)
Definition verify {R : Type} (accessToken refreshToken : string)
           (profile : Profile.t)
           (done : option JS.error -> value -> M R) : M R :=
  findOrCreate User [("googleId", Profile.id profile)]
    (fun err u _ => done err u).

Definition googleStrategy : Strategy :=
  OAuth2Strategy
    {| clientID := googleClientKey;
       clientSecret := googleClientSecret;
       callbackURL :=
         match v with
         | first => "http://127.0.0.1:3000/auth/google/callback"
         | second => "http://www.localhost:3000/auth/google/callback"
         end |}
    (@verify action).

(** The authenticator as [app.js] sets it up.  The first variant
    registers [serializeUser] and [deserializeUser]; the second registers
    neither. *)
Definition passport : Authenticator :=
  {| serializers :=
       match v with
       | first => [fun R => @serializeUser value R]
       | second => []
       end;
     deserializers :=
       match v with
       | first => [fun R => @deserializeUser value R]
       | second => []
       end;
     strategies := [("google", googleStrategy)] |}.

(** Top-level bindings of [app.js]. *)
Definition module_scope : list string :=
  [ "express"; "path"; "logger"; "bodyParser"; "app"; "mongoose";
    "passport"; "expressSession"; "cookieParser"; "User"; "ENV" ] ++
  match v with
  | first => [ "findOrCreate" ]
  | second => []
  end ++
  [ "googleClientKey"; "googleClientSecret"; "GoogleStrategy" ].

(** [app.get('/logout', ...)]: [() => { req.logout(); res.redirect('/') }]
    in the first variant, [function(req, res){ ... }] in the second. *)
Definition logout : jsfunction :=
  {| params :=
       match v with
       | first => []
       | second => [ "req"; "res" ]
       end;
     body := fun var =>
       let* r := var "req" in
       let* _ := req_logout r in
       let* s := var "res" in
       res_redirect s "/" |}.

(** [app.get('/', function(req, res){ res.render('layout', {user: req.user}); })] *)
Definition home : jsfunction :=
  {| params := [ "req"; "res" ];
     body := fun var =>
       let* s := var "res" in
       let* r := var "req" in
       let* u := req_user r in
       res_render s "layout" [("user", u)] |}.

(** The option objects of the two [passport.authenticate] calls. *)
Definition login_options : AuthenticateOptions :=
  {| scope := Some "email";
     successRedirect := None;
     failureRedirect := None |}.

Definition callback_options : AuthenticateOptions :=
  {| scope := None;
     successRedirect := Some "/";
     failureRedirect := Some "/" |}.

(** The stack in registration order.  Of the [app.use] middleware only
    [passport.session()] touches the modelled state; the cookie, body,
    logging and static-file layers pass every request on. *)
Definition stack : list layer :=
  [ use (Passport.session passport);
    get "/auth/google" (authenticate passport "google" login_options);
    get "/auth/google/callback"
      (authenticate passport "google" callback_options);
    get "/logout" (handler module_scope logout);
    get "/" (handler module_scope home) ].

(** One GET request served by the application. *)
Definition handle (st : State) (rq : Request) (w : World) : Response * State :=
  serve stack st rq w.

(** A sequence of requests, each with the world it meets. *)
Fixpoint run (st : State) (trace : list (Request * World)) : State :=
  match trace with
  | [] => st
  | (rq, w) :: rest => run (snd (handle st rq w)) rest
  end.

End Variant.

Definition empty : State := {| users := []; next_id := 0; sessions := ∅ |}.

End App.

(** ** Vocabulary of the statements *)

Import Mongoose Passport Express App.

Definition GET (route : string) (s : nat) (code err : option string) : Request :=
  {| path := route; sid := s; query_code := code; query_error := err |}.

(** The context in which the stack starts on a request. *)
Definition entering (st : State) (rq : Request) : Ctx :=
  {| app := st; req := rq; user := VUndefined; res := None |}.

(** The context once [passport.session()] has restored the session user. *)
Definition restored (c : Ctx) : Ctx :=
  match sessions (app c) !! sid (req c) with
  | Some su => if truthy su then set_user su c else c
  | None => c
  end.

(** [req.user] as the routes of session [s] see it. *)
Definition session_user (ss : gmap nat value) (s : nat) : value :=
  match ss !! s with
  | Some su => if truthy su then su else VUndefined
  | None => VUndefined
  end.

(** The errors Passport reports when no registered function serializes,
    or deserializes, a user. *)
Definition not_serialized : JS.error :=
  Error "Failed to serialize user into session".

Definition not_deserialized : JS.error :=
  Error "Failed to deserialize user out of session".

(** Whether [passport.session()] lets a request through.  The first
    variant always does; the second cannot deserialize a session user. *)
Definition passes (v : variant) (st : State) (rq : Request) : bool :=
  match v with
  | first => true
  | second => negb (truthy (session_user (sessions st) (sid rq)))
  end.

(** The second variant never holds a session user. *)
Definition unlogged (v : variant) (st : State) : Prop :=
  match v with
  | first => True
  | second => sessions st = ∅
  end.

(** What a find-or-create yields in a given world and context: the
    arguments its callback receives, and the context it receives them in. *)
Definition yielded (m : Model) (conditions : list (string * string))
           (w : World) (c : Ctx) : (option JS.error * value * bool) * Ctx :=
  match findOrCreate m conditions (fun e u created => ret (e, u, created)) w c with
  | (Return x, c') => (x, c')
  | (Throw _, c') => ((None, VUndefined, false), c')
  end.

(** How the Google strategy ends on a request. *)
Definition attempt (ENV : AppEnv) (v : variant) (options : AuthenticateOptions)
           (st : State) (rq : Request) (w : World) : result action :=
  fst (googleStrategy ENV v options w (restored (entering st rq))).

(** The context once [req.logIn(u)] has stored [u] in the session. *)
Definition logged_in (u : value) (c : Ctx) : Ctx :=
  set_app (set_sessions (insert (sid (req c)) u)) (set_user u c).

(** A document none of whose paths is set. *)
Definition blank (d : document) : Prop := doc_paths d = [].

(** [l'] is [l] followed by documents without any path set. *)
Definition appends (l l' : list document) : Prop :=
  exists added, l' = (l ++ added)%list /\ Forall blank added.

(** Every stored document stays in place, unchanged. *)
Definition frame (s s' : State) : Prop := appends (users s) (users s').

(** Every session holds a truthy user. *)
Definition sessions_truthy (st : State) : Prop :=
  map_Forall (fun _ u => truthy u = true) (sessions st).

Definition keeps_truthy (s s' : State) : Prop :=
  sessions_truthy s -> sessions_truthy s'.

(** A computation whose effect on the store stays within [R]. *)
Definition respects (R : State -> State -> Prop) {A : Type} (m : M A) : Prop :=
  forall w c, R (app c) (app (snd (m w c))).

(** No stored document has a [googleId]. *)
Definition no_googleId (l : list document) : Prop :=
  Forall (fun d => get_path d "googleId" = None) l.


(** The statement that every request to [/auth/google] is sent to the
    provider with scope [email] and changes nothing. *)
Definition login_route_only_redirects : Prop :=
  forall ENV v st rq w,
    path rq = "/auth/google" ->
    snd (handle ENV v st rq w) = st /\
    exists p, fst (handle ENV v st rq w) = redirect 302 (authorize_url p) /\
              scope_param p = Some "email".

(** Sample data for closed statements. *)
Definition sample_env : AppEnv :=
  {| GOOGLE_CLIENT_ID := "client-id"; GOOGLE_CLIENT_SECRET := "client-secret" |}.

Definition alice : Profile.t :=
  {| Profile.id := "108";
     Profile.displayName := "Alice";
     Profile.emails := ["alice@example.com"] |}.

(** A world in which Google grants every code to [alice] and the database
    works. *)
Definition granting : World :=
  {| provider := fun _ => granted "access-1" "refresh-1" alice;
     find_fault := None;
     save_fault := None |}.

(** A world in which Google refuses the code. *)
Definition refusing : World :=
  {| provider := fun _ => token_refused "invalid_grant";
     find_fault := None;
     save_fault := None |}.

(** A world in which the database fails the query. *)
Definition database_down : World :=
  {| provider := fun _ => granted "access-1" "refresh-1" alice;
     find_fault := Some (MongoError "connection lost");
     save_fault := None |}.

(** The callback URL each variant registers with the strategy. *)
Definition callback_url (v : variant) : string :=
  match v with
  | first => "http://127.0.0.1:3000/auth/google/callback"
  | second => "http://www.localhost:3000/auth/google/callback"
  end.

(** The provider's authorization page as the application addresses it. *)
Definition provider_page (ENV : AppEnv) (v : variant) (requested : option string)
  : Location :=
  authorize_url {| response_type := "code";
                   redirect_uri := callback_url v;
                   scope_param := requested;
                   client_id := GOOGLE_CLIENT_ID ENV |}.

(** The store after a document without paths has been inserted. *)
Definition inserted (st : State) : State :=
  {| users := users st ++ [Doc (next_id st) []];
     next_id := S (next_id st);
     sessions := sessions st |}.

(** What one request in session [s] can do to the store, in each variant:
    only the second variant logs out, only the first logs in. *)
Inductive effect (v : variant) (st : State) (s : nat) : State -> Prop :=
| effect_none :
    effect v st s st
| effect_logout :
    v = second ->
    effect v st s (set_sessions (delete s) st)
| effect_found d :
    v = first ->
    In d (users st) ->
    effect v st s (set_sessions (insert s (VObj d)) st)
| effect_created :
    v = first ->
    effect v st s
      (set_sessions (insert s (VObj (Doc (next_id st) []))) (inserted st))
| effect_inserted :
    v = second ->
    effect v st s (inserted st)
| effect_unsaved :
    effect v st s (set_next_id (S (next_id st)) st).

(** The responses of the application. *)
Definition answer (ENV : AppEnv) (v : variant) (r : Response) : Prop :=
  r = redirect 302 (url "/") \/
  (exists requested, r = redirect 302 (provider_page ENV v requested)) \/
  (exists u, r = render "layout" [("user", u)]) \/
  r = send_status 401 \/
  r = send_status 404 \/
  (exists e, r = error_page e).

(** Two responses that differ at most in the callback URL handed to the
    provider. *)
Definition same_but_callback_url (r1 r2 : Response) : Prop :=
  r1 = r2 \/
  exists p1 p2,
    r1 = redirect 302 (authorize_url p1) /\
    r2 = redirect 302 (authorize_url p2) /\
    response_type p1 = response_type p2 /\
    scope_param p1 = scope_param p2 /\
    client_id p1 = client_id p2.

(** Every session user is a document of the collection. *)
Definition sessions_stored (st : State) : Prop :=
  forall s u, sessions st !! s = Some u -> exists d, u = VObj d /\ In d (users st).

(** * Properties *)

(** ** The session middleware and the walk through the stack *)

Lemma restored_app c : app (restored c) = app c.
Proof.
  unfold restored. destruct (sessions (app c) !! sid (req c)) as [su|]; [|reflexivity].
  destruct (truthy su); reflexivity.
Qed.

Lemma restored_req c : req (restored c) = req c.
Proof.
  unfold restored. destruct (sessions (app c) !! sid (req c)) as [su|]; [|reflexivity].
  destruct (truthy su); reflexivity.
Qed.

Lemma restored_res c : res (restored c) = res c.
Proof.
  unfold restored. destruct (sessions (app c) !! sid (req c)) as [su|]; [|reflexivity].
  destruct (truthy su); reflexivity.
Qed.

Lemma restored_user st rq :
  user (restored (entering st rq)) = session_user (sessions st) (sid rq).
Proof.
  unfold restored, session_user, entering. cbn.
  destruct (sessions st !! sid rq) as [su|]; [|reflexivity].
  destruct (truthy su); reflexivity.
Qed.

(** In the first variant the session user is restored. *)
Lemma session_restores ENV w c :
  Passport.session (passport ENV first) w c = (Return next, restored c).
Proof.
  unfold Passport.session, restored, bind, get_ctx. cbn.
  destruct (sessions (app c) !! sid (req c)) as [su|] eqn:E; [|reflexivity].
  destruct (truthy su) eqn:T; [|reflexivity].
  unfold Passport.deserializeUser, App.deserializeUser. cbn.
  rewrite ?T. cbn. rewrite ?T. reflexivity.
Qed.

(** In the second variant a request passes when its session holds no
    user, and is stopped with an error when it holds one. *)
Lemma session_second ENV w c :
  Passport.session (passport ENV second) w c =
  if passes second (app c) (req c) then (Return next, restored c)
  else (Return (next_err not_deserialized), c).
Proof.
  unfold Passport.session, restored, passes, session_user, bind, get_ctx. cbn.
  destruct (sessions (app c) !! sid (req c)) as [su|] eqn:E; [|reflexivity].
  destruct (truthy su) eqn:T; cbn; rewrite ?T; reflexivity.
Qed.

Lemma session_passes ENV v w c :
  passes v (app c) (req c) = true ->
  Passport.session (passport ENV v) w c = (Return next, restored c).
Proof.
  intros H. destruct v.
  - apply session_restores.
  - rewrite session_second, H. reflexivity.
Qed.

Lemma session_app ENV v w c :
  app (snd (Passport.session (passport ENV v) w c)) = app c.
Proof.
  destruct v.
  - rewrite session_restores. apply restored_app.
  - rewrite session_second. destruct (passes second (app c) (req c)); cbn;
      [apply restored_app | reflexivity].
Qed.

Lemma dispatch_cons l rest w c :
  dispatch (l :: rest) w c =
  if layer_matches l (req c) then
    match layer_handle l w c with
    | (Return next, c') => dispatch rest w c'
    | (Return k, c') => (Return k, c')
    | (Throw e, c') => (Throw e, c')
    end
  else dispatch rest w c.
Proof.
  cbn [dispatch]. unfold bind at 1. cbn [get_ctx].
  destruct (layer_matches l (req c)); [|reflexivity].
  unfold bind. destruct (layer_handle l w c) as [[k|e] c']; [|reflexivity].
  destruct k; reflexivity.
Qed.

(** The stack after [passport.session()], for a request that passes it. *)
Lemma handle_after_session ENV v st rq w :
  passes v st rq = true ->
  handle ENV v st rq w =
  let '(r, c) := dispatch (tl (stack ENV v)) w (restored (entering st rq)) in
  (match res c with
   | Some response => response
   | None =>
       match r with
       | Return next => send_status 404
       | Return (next_err e) => error_page e
       | Throw e => error_page e
       | Return finished => pending
       end
   end, app c).
Proof.
  intros H. unfold handle, serve, stack. rewrite dispatch_cons.
  cbn [layer_matches layer_handle]. rewrite session_passes by exact H.
  reflexivity.
Qed.

(** A request of the second variant whose session holds a user. *)
Lemma handle_blocked ENV st rq w :
  passes second st rq = false ->
  handle ENV second st rq w = (error_page not_deserialized, st).
Proof.
  intros H. unfold handle, serve, stack. rewrite dispatch_cons.
  cbn [layer_matches layer_handle]. rewrite session_second.
  cbn [entering app req]. rewrite H. reflexivity.
Qed.

Lemma passes_first st rq : passes first st rq = true.
Proof. reflexivity. Qed.

Lemma passes_deleted v st rq :
  passes v (set_sessions (delete (sid rq)) st) rq = true.
Proof.
  destruct v; [reflexivity|]. unfold passes, session_user. cbn.
  rewrite lookup_delete_eq. reflexivity.
Qed.

Lemma passes_unlogged v st rq : unlogged v st -> passes v st rq = true.
Proof.
  destruct v; [reflexivity|]. cbn. intros ->. unfold session_user.
  rewrite lookup_empty. reflexivity.
Qed.

(** Walking to the route whose normal path the request has. *)
Ltac to_route Hp Hn :=
  rewrite handle_after_session by exact Hp; unfold stack; cbn [tl];
  repeat (rewrite dispatch_cons; cbn [layer_matches layer_handle];
          unfold route_matches; rewrite ?restored_req; cbn [entering req];
          rewrite ?Hn;
          first [ change (String.eqb ?a ?b) with false
                | change (String.eqb ?a ?b) with true ];
          cbn iota).

(** ** [/logout] *)

Lemma logout_first_throws w c :
  handler (module_scope first) (logout first) w c
  = (Return (next_err (ReferenceError "req")), c).
Proof. reflexivity. Qed.

Lemma logout_second_runs w c :
  handler (module_scope second) (logout second) w c
  = (Return finished,
     set_res (redirect 302 (url "/"))
       (set_app (set_sessions (delete (sid (req c)))) (set_user VNull c))).
Proof. reflexivity. Qed.

Lemma logout_first_serves ENV st rq w :
  normal (path rq) = "/logout" ->
  handle ENV first st rq w = (error_page (ReferenceError "req"), st).
Proof.
  intros Hn. to_route (passes_first st rq) Hn. rewrite logout_first_throws.
  rewrite restored_res, restored_app. reflexivity.
Qed.

Lemma logout_second_serves ENV st rq w :
  passes second st rq = true ->
  normal (path rq) = "/logout" ->
  handle ENV second st rq w
  = (redirect 302 (url "/"), set_sessions (delete (sid rq)) st).
Proof.
  intros Hp Hn. to_route Hp Hn. rewrite logout_second_runs.
  cbn. rewrite restored_req, restored_app. reflexivity.
Qed.

(** ** [/] *)

Lemma home_runs w c :
  handler (module_scope first) home w c
  = (Return finished, set_res (render "layout" [("user", user c)]) c)
  /\ handler (module_scope second) home w c
  = (Return finished, set_res (render "layout" [("user", user c)]) c).
Proof. split; reflexivity. Qed.

Lemma home_serves ENV v st rq w :
  passes v st rq = true ->
  normal (path rq) = "" ->
  handle ENV v st rq w
  = (render "layout" [("user", session_user (sessions st) (sid rq))], st).
Proof.
  intros Hp Hn. to_route Hp Hn.
  destruct (home_runs w (restored (entering st rq))) as [H1 H2].
  destruct v; [rewrite H1 | rewrite H2]; cbn;
    rewrite restored_app, restored_user; reflexivity.
Qed.

(** ** Find-or-create and the verify callback *)

(** ** Find-or-create and the verify callback *)

Lemma findOrCreate_yields {R : Type} m conditions
      (callback : option JS.error -> value -> bool -> M R) w c :
  findOrCreate m conditions callback w c =
  let '((e, u, created), c') := yielded m conditions w c in
  callback e u created w c'.
Proof.
  unfold yielded, findOrCreate, findOne, new, save, bind, world, get_ctx, modify, ret.
  destruct (find_fault w); cbn; [reflexivity|].
  destruct (List.find _ _); cbn; [reflexivity|].
  destruct (save_fault w); reflexivity.
Qed.

Lemma yielded_unfold m conditions w c :
  yielded m conditions w c =
  match find_fault w with
  | Some e => ((Some e, VUndefined, false), c)
  | None =>
      match List.find (matches conditions) (users (app c)) with
      | Some d => ((None, VObj d, false), c)
      | None =>
          let obj := Doc (next_id (app c)) (strict (schema m) conditions) in
          let c1 := set_app (set_next_id (S (next_id (app c)))) c in
          match save_fault w with
          | Some e => ((Some e, VObj obj, true), c1)
          | None =>
              ((None, VObj obj, true),
               set_app (set_users (fun l => (l ++ [obj])%list)) c1)
          end
      end
  end.
Proof.
  unfold yielded, findOrCreate, findOne, new, save, bind, world, get_ctx, modify, ret.
  destruct (find_fault w); cbn; [reflexivity|].
  destruct (List.find _ _); cbn; [reflexivity|].
  destruct (save_fault w); reflexivity.
Qed.

Lemma strict_googleId x : strict userSchema [("googleId", x)] = [].
Proof. reflexivity. Qed.

Lemma yielded_User x w c :
  yielded User [("googleId", x)] w c =
  match find_fault w with
  | Some e => ((Some e, VUndefined, false), c)
  | None =>
      match List.find (matches [("googleId", x)]) (users (app c)) with
      | Some d => ((None, VObj d, false), c)
      | None =>
          let n := next_id (app c) in
          let c1 := set_app (set_next_id (S n)) c in
          match save_fault w with
          | Some e => ((Some e, VObj (Doc n []), true), c1)
          | None =>
              ((None, VObj (Doc n []), true),
               set_app (set_users (fun l => (l ++ [Doc n []])%list)) c1)
          end
      end
  end.
Proof. rewrite yielded_unfold. reflexivity. Qed.

Lemma verify_yields {R : Type} a r p
      (done : option JS.error -> value -> M R) w c :
  verify a r p done w c =
  let '((err, u, _), c') := yielded User [("googleId", Profile.id p)] w c in
  done err u w c'.
Proof. unfold verify. apply findOrCreate_yields. Qed.


(** ** The Google strategy and [passport.authenticate] *)

(** ** The Google strategy and [passport.authenticate] *)

Lemma googleStrategy_ends ENV v options w c :
  googleStrategy ENV v options w c =
  match given (query_error (req c)) with
  | Some e =>
      (Return (if String.eqb e "access_denied" then fail
               else error (AuthorizationError e)), c)
  | None =>
      match given (query_code (req c)) with
      | Some code =>
          match provider w code with
          | token_refused msg => (Return (error (TokenError msg)), c)
          | profile_unavailable msg => (Return (error (InternalOAuthError msg)), c)
          | granted a r p =>
              let '((err, u, _), c') :=
                yielded User [("googleId", Profile.id p)] w c in
              (Return (match err with
                       | Some e => error e
                       | None => if negb (truthy u) then fail else success u
                       end), c')
          end
      | None =>
          (Return (redirect_to (authorize_url
             {| response_type := "code";
                redirect_uri :=
                  match v with
                  | first => "http://127.0.0.1:3000/auth/google/callback"
                  | second => "http://www.localhost:3000/auth/google/callback"
                  end;
                scope_param := scope options;
                client_id := GOOGLE_CLIENT_ID ENV |})), c)
      end
  end.
Proof.
  unfold googleStrategy, OAuth2Strategy, bind, get_ctx, world. cbn.
  destruct (given (query_error (req c))) as [e|].
  - destruct (String.eqb e "access_denied"); reflexivity.
  - destruct (given (query_code (req c))) as [code|]; [|reflexivity].
    destruct (provider w code) as [msg|msg|a r p]; try reflexivity.
    rewrite verify_yields.
    destruct (yielded User _ w c) as [[[err u] created] c'].
    destruct err; [reflexivity|]. destruct (truthy u); reflexivity.
Qed.

Lemma googleStrategy_success_truthy ENV v options w c u c' :
  googleStrategy ENV v options w c = (Return (success u), c') -> truthy u = true.
Proof.
  rewrite googleStrategy_ends.
  destruct (given (query_error (req c))) as [e|].
  - destruct (String.eqb e "access_denied"); discriminate.
  - destruct (given (query_code (req c))) as [code|]; [|discriminate].
    destruct (provider w code) as [msg|msg|a r p]; try discriminate.
    destruct (yielded User _ w c) as [[[err x] created] c2].
    destruct err; [discriminate|].
    destruct (truthy x) eqn:T; cbn; [|discriminate].
    intros H. injection H as -> _. exact T.
Qed.

(** ** The two OAuth routes *)

Lemma yielded_ctx x w c :
  let c' := snd (yielded User [("googleId", x)] w c) in
  req c' = req c /\ res c' = res c /\ user c' = user c /\
  sessions (app c') = sessions (app c).
Proof.
  rewrite yielded_User.
  destruct (find_fault w); cbn; auto.
  destruct (List.find _ _); cbn; auto.
  destruct (save_fault w); cbn; auto.
Qed.

Lemma googleStrategy_ctx ENV v options w c :
  let c' := snd (googleStrategy ENV v options w c) in
  req c' = req c /\ res c' = res c /\ user c' = user c /\
  sessions (app c') = sessions (app c).
Proof.
  rewrite googleStrategy_ends.
  destruct (given (query_error (req c))); cbn; auto.
  destruct (given (query_code (req c))) as [code|]; cbn; auto.
  destruct (provider w code) as [msg|msg|a r p]; cbn; auto.
  pose proof (yielded_ctx (Profile.id p) w c) as H.
  destruct (yielded User _ w c) as [[[err u] created] c']. exact H.
Qed.

Lemma googleStrategy_returns ENV v options w c :
  exists a c', googleStrategy ENV v options w c = (Return a, c') /\ a <> pass.
Proof.
  rewrite googleStrategy_ends.
  destruct (given (query_error (req c))) as [e|].
  - destruct (String.eqb e "access_denied"); eauto.
  - destruct (given (query_code (req c))) as [code|]; [|eauto].
    destruct (provider w code) as [msg|msg|a r p]; eauto.
    destruct (yielded User _ w c) as [[[err u] created] c'].
    destruct err; [eauto|]. destruct (truthy u); cbn; eauto.
Qed.

(** ** Routes, one by one *)

Lemma googleStrategy_outcome ENV v options w c :
  exists a c',
    googleStrategy ENV v options w c = (Return a, c') /\
    a <> pass /\
    req c' = req c /\ res c' = res c /\
    sessions (app c') = sessions (app c) /\
    (forall u, a = success u -> truthy u = true).
Proof.
  destruct (googleStrategy_returns ENV v options w c) as (a & c' & E & Hp).
  pose proof (googleStrategy_ctx ENV v options w c) as (Hreq & Hres & _ & Hs).
  pose proof (googleStrategy_success_truthy ENV v options w c) as Ht.
  rewrite E in *. cbn in Hreq, Hres, Hs.
  exists a, c'. repeat split; try assumption.
  intros u ->. apply (Ht u c' eq_refl).
Qed.

(** How the strategy ends, read off the request and the world. *)
Lemma attempt_cases ENV v options st rq w :
  attempt ENV v options st rq w =
  match given (query_error rq) with
  | Some e =>
      Return (if String.eqb e "access_denied" then fail
              else error (AuthorizationError e))
  | None =>
      match given (query_code rq) with
      | Some code =>
          match provider w code with
          | token_refused msg => Return (error (TokenError msg))
          | profile_unavailable msg => Return (error (InternalOAuthError msg))
          | granted a r p =>
              match fst (yielded User [("googleId", Profile.id p)] w
                           (restored (entering st rq))) with
              | (Some e, _, _) => Return (error e)
              | (None, u, _) => Return (if truthy u then success u else fail)
              end
          end
      | None =>
          Return (redirect_to (authorize_url
            {| response_type := "code";
               redirect_uri :=
                 match v with
                 | first => "http://127.0.0.1:3000/auth/google/callback"
                 | second => "http://www.localhost:3000/auth/google/callback"
                 end;
               scope_param := scope options;
               client_id := GOOGLE_CLIENT_ID ENV |}))
      end
  end.
Proof.
  unfold attempt. rewrite googleStrategy_ends, restored_req.
  cbn [entering req].
  destruct (given (query_error rq)); [reflexivity|].
  destruct (given (query_code rq)) as [code|]; [|reflexivity].
  destruct (provider w code) as [msg|msg|a r p]; try reflexivity.
  destruct (yielded User _ w _) as [[[err u] created] c'].
  destruct err; [reflexivity|]. cbn. destruct (truthy u); reflexivity.
Qed.

(** What the strategy does to the store, with the user it ends on. *)
Lemma googleStrategy_store ENV v options w c :
  match googleStrategy ENV v options w c with
  | (Return (success u), c') =>
      (app c' = app c /\ exists d, u = VObj d /\ In d (users (app c))) \/
      (app c' = inserted (app c) /\ u = VObj (Doc (next_id (app c)) []))
  | (Return (error _), c') =>
      app c' = app c \/ app c' = set_next_id (S (next_id (app c))) (app c)
  | (_, c') => app c' = app c
  end.
Proof.
  rewrite googleStrategy_ends.
  destruct (given (query_error (req c))) as [e|].
  { destruct (String.eqb e "access_denied"); auto. }
  destruct (given (query_code (req c))) as [code|]; [|reflexivity].
  destruct (provider w code) as [msg|msg|a r p]; auto.
  rewrite yielded_User.
  destruct (find_fault w); auto.
  destruct (List.find _ (users (app c))) as [d|] eqn:E.
  { cbn. left. split; [reflexivity|]. exists d. split; [reflexivity|].
    apply (List.find_some _ _ E). }
  destruct (save_fault w); cbn; auto.
Qed.

Lemma googleStrategy_redirects ENV v options w c location c' :
  googleStrategy ENV v options w c = (Return (redirect_to location), c') ->
  location = provider_page ENV v (scope options).
Proof.
  rewrite googleStrategy_ends.
  destruct (given (query_error (req c))) as [e|].
  { destruct (String.eqb e "access_denied"); discriminate. }
  destruct (given (query_code (req c))) as [code|].
  - destruct (provider w code) as [msg|msg|a r p]; try discriminate.
    destruct (yielded User _ w c) as [[[err u] created] c2].
    destruct err; [discriminate|]. destruct (truthy u); discriminate.
  - intros [= <- _]. destruct v; reflexivity.
Qed.

(** ** The strategy without a grant, and across the variants *)

Lemma googleStrategy_ungranted ENV v options w c :
  (forall code a r p,
      given (query_code (req c)) = Some code -> provider w code <> granted a r p) ->
  exists a, googleStrategy ENV v options w c = (Return a, c) /\
            forall u, a <> success u.
Proof.
  intros H. rewrite googleStrategy_ends.
  destruct (given (query_error (req c))) as [e|].
  { destruct (String.eqb e "access_denied"); eexists; split; try reflexivity;
      discriminate. }
  destruct (given (query_code (req c))) as [code|];
    [|eexists; split; [reflexivity | discriminate]].
  specialize (H code).
  destruct (provider w code) as [msg|msg|a r p].
  - eexists; split; [reflexivity | discriminate].
  - eexists; split; [reflexivity | discriminate].
  - exfalso. apply (H a r p); reflexivity.
Qed.

Lemma googleStrategy_provider_page ENV v options w c :
  given (query_error (req c)) = None ->
  given (query_code (req c)) = None ->
  googleStrategy ENV v options w c
  = (Return (redirect_to (provider_page ENV v (scope options))), c).
Proof.
  intros He Hc. rewrite googleStrategy_ends, He, Hc. destruct v; reflexivity.
Qed.

Lemma googleStrategy_same_in_variants ENV options w c :
  given (query_error (req c)) <> None \/ given (query_code (req c)) <> None ->
  googleStrategy ENV first options w c = googleStrategy ENV second options w c.
Proof.
  intros H. rewrite !googleStrategy_ends.
  destruct (given (query_error (req c))) as [e|]; [reflexivity|].
  destruct (given (query_code (req c))) as [code|]; [reflexivity|].
  destruct H as [H|H]; congruence.
Qed.

(** The strategy reads the store and the two query parameters only. *)
Lemma googleStrategy_reads ENV v o1 o2 w c1 c2 :
  app c1 = app c2 ->
  query_code (req c1) = query_code (req c2) ->
  query_error (req c1) = query_error (req c2) ->
  app (snd (googleStrategy ENV v o1 w c1))
  = app (snd (googleStrategy ENV v o2 w c2)) /\
  (forall u, fst (googleStrategy ENV v o1 w c1) = Return (success u) <->
             fst (googleStrategy ENV v o2 w c2) = Return (success u)).
Proof.
  intros Happ Hqc Hqe. rewrite !googleStrategy_ends, <- Hqc, <- Hqe.
  destruct (given (query_error (req c1))) as [e|].
  { cbn. split; [exact Happ | reflexivity]. }
  destruct (given (query_code (req c1))) as [code|].
  2:{ cbn. split; [exact Happ|]. intros u. split; discriminate. }
  destruct (provider w code) as [msg|msg|a r p];
    try (cbn; split; [exact Happ | reflexivity]).
  rewrite !yielded_User, <- Happ.
  destruct (find_fault w); [cbn; split; [exact Happ | reflexivity]|].
  destruct (List.find _ (users (app c1)));
    [cbn; split; [exact Happ | reflexivity]|].
  destruct (save_fault w); cbn; rewrite Happ; split; reflexivity.
Qed.


(** [req.logIn] succeeds in the first variant and fails in the second,
    which has no function to serialize the user with. *)
Lemma authenticate_google ENV v options w c :
  authenticate (passport ENV v) "google" options w c =
  match googleStrategy ENV v options w c with
  | (Return (success u), c') =>
      match v with
      | first =>
          if truthy u then
            match successRedirect options with
            | Some target =>
                (Return finished,
                 set_res (redirect 302 (url target)) (logged_in u c'))
            | None => (Return next, logged_in u c')
            end
          else (Return (next_err not_serialized), set_user VNull c')
      | second => (Return (next_err not_serialized), set_user VNull c')
      end
  | (Return fail, c') =>
      match failureRedirect options with
      | Some target => (Return finished, set_res (redirect 302 (url target)) c')
      | None => (Return finished, set_res (send_status 401) c')
      end
  | (Return (redirect_to location), c') =>
      (Return finished, set_res (redirect 302 location) c')
  | (Return pass, c') => (Return next, c')
  | (Return (error e), c') => (Return (next_err e), c')
  | (Throw e, c') => (Throw e, c')
  end.
Proof.
  unfold authenticate. cbn [passport strategies assoc].
  change (String.eqb "google" "google") with true. cbn iota.
  unfold bind at 1.
  destruct (googleStrategy ENV v options w c) as [[a|e] c']; [|reflexivity].
  destruct a as [u| | | |]; try reflexivity.
  - unfold logIn, Passport.serializeUser, bind, modify, get_ctx.
    destruct v; cbn.
    + unfold App.serializeUser. cbn. destruct (truthy u); cbn; [|reflexivity].
      destruct (successRedirect options); reflexivity.
    + reflexivity.
  - destruct (failureRedirect options); reflexivity.
Qed.

(** ** Routes, one by one *)

(** The response of the callback route, by the way the strategy ends. *)
Lemma callback_serves ENV v st rq w :
  passes v st rq = true ->
  normal (path rq) = "/auth/google/callback" ->
  handle ENV v st rq w =
  match googleStrategy ENV v callback_options w (restored (entering st rq)) with
  | (Return (success u), c') =>
      match v with
      | first => (redirect 302 (url "/"), app (logged_in u c'))
      | second => (error_page not_serialized, app c')
      end
  | (Return fail, c') => (redirect 302 (url "/"), app c')
  | (Return (redirect_to location), c') => (redirect 302 location, app c')
  | (Return pass, c') => (send_status 404, app c')
  | (Return (error e), c') => (error_page e, app c')
  | (Throw e, c') => (error_page e, app c')
  end.
Proof.
  intros Hp Hn. to_route Hp Hn. rewrite authenticate_google.
  set (c0 := restored (entering st rq)).
  destruct (googleStrategy_outcome ENV v callback_options w c0)
    as (a & c' & E & Hpass & Hreq & Hres & _ & Ht).
  rewrite E.
  assert (res c' = None) as Hnone.
  { rewrite Hres. unfold c0. rewrite restored_res. reflexivity. }
  destruct a as [u| |location| |e]; cbn -[dispatch].
  - destruct v; [rewrite (Ht u eq_refl); reflexivity|].
    cbn -[dispatch]. rewrite Hnone. reflexivity.
  - reflexivity.
  - reflexivity.
  - congruence.
  - rewrite Hnone. reflexivity.
Qed.

(** The response of the login route, by the way the strategy ends. *)
Lemma login_route_serves ENV v st rq w :
  passes v st rq = true ->
  normal (path rq) = "/auth/google" ->
  handle ENV v st rq w =
  match googleStrategy ENV v login_options w (restored (entering st rq)) with
  | (Return (success u), c') =>
      match v with
      | first => (send_status 404, app (logged_in u c'))
      | second => (error_page not_serialized, app c')
      end
  | (Return fail, c') => (send_status 401, app c')
  | (Return (redirect_to location), c') => (redirect 302 location, app c')
  | (Return pass, c') => (send_status 404, app c')
  | (Return (error e), c') => (error_page e, app c')
  | (Throw e, c') => (error_page e, app c')
  end.
Proof.
  intros Hp Hn. to_route Hp Hn. rewrite authenticate_google.
  set (c0 := restored (entering st rq)).
  destruct (googleStrategy_outcome ENV v login_options w c0)
    as (a & c' & E & Hpass & Hreq & Hres & _ & Ht).
  rewrite E.
  assert (res c' = None) as Hnone.
  { rewrite Hres. unfold c0. rewrite restored_res. reflexivity. }
  assert (normal (path (req c')) = "/auth/google") as Hrq.
  { rewrite Hreq. unfold c0. rewrite restored_req. exact Hn. }
  destruct a as [u| |location| |e].
  - destruct v.
    + rewrite (Ht u eq_refl). cbn [successRedirect login_options].
      rewrite !dispatch_cons.
      cbn [layer_matches logged_in set_app set_user req].
      unfold route_matches. rewrite Hrq.
      repeat change (String.eqb ?a ?b) with false.
      cbn. rewrite Hnone. reflexivity.
    + cbn -[dispatch]. rewrite Hnone. reflexivity.
  - reflexivity.
  - reflexivity.
  - congruence.
  - cbn -[dispatch]. rewrite Hnone. reflexivity.
Qed.

(** A path no route is registered for. *)
Lemma unknown_route_serves ENV v st rq w :
  passes v st rq = true ->
  normal (path rq) <> "/auth/google" ->
  normal (path rq) <> "/auth/google/callback" ->
  normal (path rq) <> "/logout" ->
  normal (path rq) <> "" ->
  handle ENV v st rq w = (send_status 404, st).
Proof.
  intros Hp H1 H2 H3 H4.
  apply String.eqb_neq in H1, H2, H3, H4.
  rewrite handle_after_session by exact Hp. unfold stack. cbn [tl].
  rewrite !dispatch_cons. cbn [layer_matches]. unfold route_matches.
  rewrite restored_req. cbn [entering req].
  change (normal "/auth/google") with "/auth/google".
  change (normal "/auth/google/callback") with "/auth/google/callback".
  change (normal "/logout") with "/logout".
  change (normal "/") with "".
  rewrite H1, H2, H3, H4.
  cbn. rewrite restored_res, restored_app. reflexivity.
Qed.

(** Every request reaches one of the four routes or none. *)
Lemma route_cases (rq : Request) :
  normal (path rq) = "/auth/google" \/
  normal (path rq) = "/auth/google/callback" \/
  normal (path rq) = "/logout" \/
  normal (path rq) = "" \/
  (normal (path rq) <> "/auth/google" /\
   normal (path rq) <> "/auth/google/callback" /\
   normal (path rq) <> "/logout" /\ normal (path rq) <> "").
Proof.
  destruct (String.eqb_spec (normal (path rq)) "/auth/google"); [auto|].
  destruct (String.eqb_spec (normal (path rq)) "/auth/google/callback"); [auto|].
  destruct (String.eqb_spec (normal (path rq)) "/logout"); [auto|].
  destruct (String.eqb_spec (normal (path rq)) ""); [auto 6|].
  right; right; right; right. auto.
Qed.

(** ** Relations every request respects *)

Section Respects.

Variable R : State -> State -> Prop.
Hypothesis R_refl : forall s, R s s.
Hypothesis R_trans : forall s1 s2 s3, R s1 s2 -> R s2 s3 -> R s1 s3.

Lemma dispatch_respects stack :
  Forall (fun l => respects R (layer_handle l)) stack ->
  respects R (dispatch stack).
Proof.
  induction 1 as [|l rest Hl _ IH]; intros w c.
  - cbn. apply R_refl.
  - rewrite dispatch_cons. destruct (layer_matches l (req c)); [|apply IH].
    specialize (Hl w c).
    destruct (layer_handle l w c) as [[k|e] c']; cbn in *; [|exact Hl].
    destruct k; cbn; try exact Hl.
    eapply R_trans; [exact Hl | apply IH].
Qed.

Lemma serve_respects stack st rq w :
  Forall (fun l => respects R (layer_handle l)) stack ->
  R st (snd (serve stack st rq w)).
Proof.
  intros Hs. unfold serve.
  pose proof (dispatch_respects _ Hs w (entering st rq)) as H.
  unfold entering in H.
  destruct (dispatch stack w _) as [r c]. exact H.
Qed.


Lemma session_respects ENV v : respects R (Passport.session (passport ENV v)).
Proof. intros w c. rewrite session_app. apply R_refl. Qed.

Lemma home_respects v : respects R (handler (module_scope v) home).
Proof.
  intros w c. destruct (home_runs w c) as [H1 H2].
  destruct v; [rewrite H1 | rewrite H2]; cbn; apply R_refl.
Qed.


End Respects.

(** *** Stored documents stay in place *)

(** *** Stored documents stay in place *)

Lemma appends_refl l : appends l l.
Proof. exists []. split; [symmetry; apply app_nil_r | constructor]. Qed.

Lemma appends_trans l1 l2 l3 : appends l1 l2 -> appends l2 l3 -> appends l1 l3.
Proof.
  intros [a [-> Ha]] [b [-> Hb]]. exists (a ++ b)%list. split.
  - symmetry. apply app_assoc.
  - apply Forall_app. split; assumption.
Qed.

Lemma appends_one l n : appends l (l ++ [Doc n []])%list.
Proof. exists [Doc n []]. split; [reflexivity|]. repeat constructor. Qed.

Lemma appends_lookup l l' i d :
  appends l l' -> l !! i = Some d -> l' !! i = Some d.
Proof. intros [added [-> _]] H. apply lookup_app_l_Some. exact H. Qed.

Lemma frame_refl s : frame s s.
Proof. apply appends_refl. Qed.

Lemma frame_trans s1 s2 s3 : frame s1 s2 -> frame s2 s3 -> frame s1 s3.
Proof. apply appends_trans. Qed.


Create HintDb frame.
#[local] Hint Resolve appends_refl appends_one frame_refl : frame.
#[local] Hint Unfold frame : frame.

Lemma yielded_frame x w c :
  frame (app c) (app (snd (yielded User [("googleId", x)] w c))).
Proof.
  rewrite yielded_User. unfold frame.
  destruct (find_fault w); cbn; auto with frame.
  destruct (List.find _ _); cbn; auto with frame.
  destruct (save_fault w); cbn; auto with frame.
Qed.

Lemma googleStrategy_frame ENV v options :
  respects frame (googleStrategy ENV v options).
Proof.
  intros w c. rewrite googleStrategy_ends.
  destruct (given (query_error (req c))); cbn; auto with frame.
  destruct (given (query_code (req c))) as [code|]; cbn; auto with frame.
  destruct (provider w code) as [msg|msg|a r p]; cbn; auto with frame.
  pose proof (yielded_frame (Profile.id p) w c) as H.
  destruct (yielded User _ w c) as [[[err u] created] c']. exact H.
Qed.


Lemma authenticate_frame ENV v options :
  respects frame (authenticate (passport ENV v) "google" options).
Proof.
  intros w c. rewrite authenticate_google.
  pose proof (googleStrategy_frame ENV v options w c) as H.
  destruct (googleStrategy ENV v options w c) as [[a|e] c']; cbn in *; [|exact H].
  destruct a as [u| | | |]; cbn; try exact H.
  - destruct v; [|exact H].
    destruct (truthy u); [destruct (successRedirect options)|]; exact H.
  - destruct (failureRedirect options); exact H.
Qed.

Lemma logout_frame v : respects frame (handler (module_scope v) (logout v)).
Proof.
  intros w c. destruct v.
  - rewrite logout_first_throws. cbn. auto with frame.
  - rewrite logout_second_runs. cbn. auto with frame.
Qed.

Lemma stack_frame ENV v :
  Forall (fun l => respects frame (layer_handle l)) (stack ENV v).
Proof.
  unfold stack. repeat constructor; cbn [layer_handle].
  - apply session_respects, frame_refl.
  - apply authenticate_frame.
  - apply authenticate_frame.
  - apply logout_frame.
  - apply home_respects, frame_refl.
Qed.

Lemma handle_frame ENV v st rq w : frame st (snd (handle ENV v st rq w)).
Proof.
  unfold handle. apply (serve_respects frame);
    [apply frame_refl | apply frame_trans | apply stack_frame].
Qed.

Lemma run_frame ENV v trace : forall st, frame st (run ENV v st trace).
Proof.
  induction trace as [|[rq w] rest IH]; intros st; cbn [run].
  - apply frame_refl.
  - eapply frame_trans; [apply handle_frame | apply IH].
Qed.


(** *** Sessions hold truthy users *)

(** *** Sessions hold truthy users *)

Lemma keeps_truthy_refl s : keeps_truthy s s.
Proof. intros H. exact H. Qed.

Lemma keeps_truthy_trans s1 s2 s3 :
  keeps_truthy s1 s2 -> keeps_truthy s2 s3 -> keeps_truthy s1 s3.
Proof. unfold keeps_truthy. auto. Qed.


Lemma authenticate_truthy ENV v options :
  respects keeps_truthy (authenticate (passport ENV v) "google" options).
Proof.
  intros w c Hc. rewrite authenticate_google.
  pose proof (googleStrategy_ctx ENV v options w c) as (_ & _ & _ & Hs).
  destruct (googleStrategy ENV v options w c) as [[a|e] c']; cbn in *;
    [|unfold sessions_truthy; rewrite Hs; exact Hc].
  assert (sessions_truthy (app c')) as Hc'
      by (unfold sessions_truthy; rewrite Hs; exact Hc).
  destruct a as [u| | | |]; cbn; try exact Hc'.
  - destruct v; [|exact Hc'].
    destruct (truthy u) eqn:T; [|exact Hc'].
    assert (sessions_truthy (app (logged_in u c'))) as Hin.
    { unfold sessions_truthy, logged_in. cbn.
      apply map_Forall_insert_2; [exact T | exact Hc']. }
    destruct (successRedirect options); exact Hin.
  - destruct (failureRedirect options); exact Hc'.
Qed.

Lemma logout_truthy v :
  respects keeps_truthy (handler (module_scope v) (logout v)).
Proof.
  intros w c Hc. destruct v.
  - rewrite logout_first_throws. exact Hc.
  - rewrite logout_second_runs. unfold sessions_truthy. cbn.
    apply map_Forall_delete. exact Hc.
Qed.

Lemma stack_truthy ENV v :
  Forall (fun l => respects keeps_truthy (layer_handle l)) (stack ENV v).
Proof.
  unfold stack. repeat constructor; cbn [layer_handle].
  - apply session_respects, keeps_truthy_refl.
  - apply authenticate_truthy.
  - apply authenticate_truthy.
  - apply logout_truthy.
  - apply home_respects, keeps_truthy_refl.
Qed.

Lemma handle_truthy ENV v st rq w :
  sessions_truthy st -> sessions_truthy (snd (handle ENV v st rq w)).
Proof.
  unfold handle. apply (serve_respects keeps_truthy);
    [apply keeps_truthy_refl | apply keeps_truthy_trans | apply stack_truthy].
Qed.

Lemma run_truthy ENV v trace :
  forall st, sessions_truthy st -> sessions_truthy (run ENV v st trace).
Proof.
  induction trace as [|[rq w] rest IH]; intros st H; cbn [run].
  - exact H.
  - apply IH, handle_truthy, H.
Qed.

Lemma reachable_truthy ENV v trace : sessions_truthy (run ENV v empty trace).
Proof. apply run_truthy. apply map_Forall_empty. Qed.

Lemma session_user_truthy ss s :
  map_Forall (fun _ u => truthy u = true) ss ->
  session_user ss s = default VUndefined (ss !! s).
Proof.
  intros H. unfold session_user.
  destruct (ss !! s) as [su|] eqn:E; [|reflexivity].
  rewrite (H s su E). reflexivity.
Qed.


(** ** The lookup key and the stored documents *)

(** ** The lookup key and the stored documents *)

Lemma find_no_googleId x l :
  no_googleId l -> List.find (matches [("googleId", x)]) l = None.
Proof.
  induction 1 as [|d l Hd _ IH]; [reflexivity|].
  cbn [List.find]. unfold matches at 1. cbn [forallb fst snd].
  rewrite Hd. cbn. exact IH.
Qed.

Lemma no_googleId_appends l l' : appends l l' -> no_googleId l -> no_googleId l'.
Proof.
  intros [added [-> Hb]] Hl. apply Forall_app. split; [exact Hl|].
  eapply Forall_impl; [exact Hb|]. intros d Hd.
  unfold get_path. rewrite Hd. reflexivity.
Qed.

Lemma reachable_no_googleId ENV v trace :
  no_googleId (users (run ENV v empty trace)).
Proof.
  eapply no_googleId_appends; [apply (run_frame ENV v trace empty)|].
  constructor.
Qed.


(** ** The effect of one request on the store *)

Lemma strategy_effect ENV v options st rq w :
  match googleStrategy ENV v options w (restored (entering st rq)) with
  | (Return (success u), c') =>
      match v with
      | first => effect v st (sid rq) (app (logged_in u c'))
      | second => effect v st (sid rq) (app c')
      end
  | (_, c') => effect v st (sid rq) (app c')
  end.
Proof.
  set (c0 := restored (entering st rq)).
  pose proof (googleStrategy_store ENV v options w c0) as H.
  destruct (googleStrategy_outcome ENV v options w c0)
    as (a & c' & E & _ & Hreq & _ & _ & _).
  rewrite E in *.
  assert (app c0 = st) as Hst by (unfold c0; rewrite restored_app; reflexivity).
  assert (sid (req c') = sid rq) as Hsid
      by (rewrite Hreq; unfold c0; rewrite restored_req; reflexivity).
  rewrite Hst in H.
  destruct a as [u| |location| |e].
  - destruct v.
    + change (app (logged_in u c'))
        with (set_sessions (insert (sid (req c')) u) (app c')).
      rewrite Hsid.
      destruct H as [[-> (d & -> & Hd)] | [-> ->]].
      * apply effect_found; [reflexivity | exact Hd].
      * apply effect_created. reflexivity.
    + destruct H as [[-> _] | [-> _]].
      * apply effect_none.
      * apply effect_inserted. reflexivity.
  - rewrite H. constructor.
  - rewrite H. constructor.
  - rewrite H. constructor.
  - destruct H as [-> | ->]; constructor.
Qed.

Lemma handle_effect ENV v st rq w :
  effect v st (sid rq) (snd (handle ENV v st rq w)).
Proof.
  destruct (passes v st rq) eqn:Hp.
  2:{ destruct v; [discriminate Hp|].
      rewrite handle_blocked by exact Hp. constructor. }
  destruct (route_cases rq) as [Hn | [Hn | [Hn | [Hn | (H1 & H2 & H3 & H4)]]]].
  - rewrite login_route_serves by assumption.
    pose proof (strategy_effect ENV v login_options st rq w) as H.
    destruct (googleStrategy ENV v login_options w _) as [[a|e] c'];
      [destruct a; try exact H; destruct v; exact H | exact H].
  - rewrite callback_serves by assumption.
    pose proof (strategy_effect ENV v callback_options st rq w) as H.
    destruct (googleStrategy ENV v callback_options w _) as [[a|e] c'];
      [destruct a; try exact H; destruct v; exact H | exact H].
  - destruct v.
    + rewrite logout_first_serves by assumption. constructor.
    + rewrite logout_second_serves by assumption.
      apply effect_logout. reflexivity.
  - rewrite home_serves by assumption. constructor.
  - rewrite unknown_route_serves by assumption. constructor.
Qed.


Lemma effect_stored v st s st' :
  effect v st s st' -> sessions_stored st -> sessions_stored st'.
Proof.
  intros H Hst. destruct H; intros k u;
    cbn [sessions users set_sessions set_next_id inserted].
  - apply Hst.
  - intros Hk. apply lookup_delete_Some in Hk as [_ Hk]. apply (Hst k u Hk).
  - destruct (decide (s = k)) as [->|Hne].
    + rewrite lookup_insert_eq. intros [= <-]. eauto.
    + rewrite lookup_insert_ne by exact Hne. apply Hst.
  - destruct (decide (s = k)) as [->|Hne].
    + rewrite lookup_insert_eq. intros [= <-].
      eexists. split; [reflexivity|]. apply in_or_app. right. left. reflexivity.
    + rewrite lookup_insert_ne by exact Hne. intros Hk.
      destruct (Hst k u Hk) as (d & -> & Hd).
      exists d. split; [reflexivity|]. apply in_or_app. left. exact Hd.
  - intros Hk. destruct (Hst k u Hk) as (d & -> & Hd).
    exists d. split; [reflexivity|]. apply in_or_app. left. exact Hd.
  - apply Hst.
Qed.

Lemma effect_unlogged v st s st' :
  effect v st s st' -> unlogged v st -> unlogged v st'.
Proof.
  intros H Hu. destruct v; [exact I|]. cbn in *.
  destruct H; cbn [sessions set_sessions set_next_id inserted];
    try discriminate; try exact Hu.
  rewrite Hu. apply delete_empty.
Qed.

Lemma run_stored ENV v trace :
  forall st, sessions_stored st -> sessions_stored (run ENV v st trace).
Proof.
  induction trace as [|[rq w] rest IH]; intros st H; cbn [run]; [exact H|].
  apply IH. eapply effect_stored; [apply handle_effect | exact H].
Qed.

Lemma run_unlogged ENV v trace :
  forall st, unlogged v st -> unlogged v (run ENV v st trace).
Proof.
  induction trace as [|[rq w] rest IH]; intros st H; cbn [run]; [exact H|].
  apply IH. eapply effect_unlogged; [apply handle_effect | exact H].
Qed.

Lemma reachable_unlogged ENV v trace : unlogged v (run ENV v empty trace).
Proof. apply run_unlogged. destruct v; reflexivity. Qed.


(** ** Granted logins *)

(** A granted login against a collection without [googleId] values
    inserts a document, whoever logs in; in the first variant the
    document becomes the session user. *)
Lemma login_creates ENV st s qc qe w code a r p :
  no_googleId (users st) ->
  given qe = None -> given qc = Some code ->
  provider w code = granted a r p ->
  find_fault w = None -> save_fault w = None ->
  handle ENV first st (GET "/auth/google/callback" s qc qe) w =
  (redirect 302 (url "/"),
   {| users := users st ++ [Doc (next_id st) []];
      next_id := S (next_id st);
      sessions := <[s := VObj (Doc (next_id st) [])]> (sessions st) |}).
Proof.
  intros Hno Hqe Hqc Hp Hf Hs.
  rewrite callback_serves by reflexivity.
  rewrite googleStrategy_ends, restored_req.
  cbn [entering GET req query_error query_code].
  rewrite Hqe, Hqc, Hp, yielded_User, Hf, Hs, restored_app.
  cbn [entering app]. rewrite (find_no_googleId _ _ Hno).
  cbn. rewrite restored_req, restored_app. reflexivity.
Qed.

Lemma login_inserts ENV v st s qc qe w code a r p :
  passes v st (GET "/auth/google/callback" s qc qe) = true ->
  no_googleId (users st) ->
  given qe = None -> given qc = Some code ->
  provider w code = granted a r p ->
  find_fault w = None -> save_fault w = None ->
  users (snd (handle ENV v st (GET "/auth/google/callback" s qc qe) w))
  = (users st ++ [Doc (next_id st) []])%list.
Proof.
  intros Hpass Hno Hqe Hqc Hp Hf Hs.
  rewrite callback_serves by (exact Hpass || reflexivity).
  rewrite googleStrategy_ends, restored_req.
  cbn [entering GET req query_error query_code].
  rewrite Hqe, Hqc, Hp, yielded_User, Hf, Hs, restored_app.
  cbn [entering app]. rewrite (find_no_googleId _ _ Hno).
  destruct v; cbn; rewrite restored_app; reflexivity.
Qed.

(** Logging the same identity in [n] times creates [n] documents. *)
Lemma repeated_logins_count ENV v s qc qe w code a r p n :
  given qe = None -> given qc = Some code ->
  provider w code = granted a r p ->
  find_fault w = None -> save_fault w = None ->
  forall st,
    no_googleId (users st) -> unlogged v st ->
    length (users (run ENV v st
              (repeat (GET "/auth/google/callback" s qc qe, w) n)))
    = length (users st) + n.
Proof.
  intros Hqe Hqc Hp Hf Hs.
  induction n as [|n IH]; intros st Hno Hu; cbn [repeat run].
  - lia.
  - rewrite IH.
    + rewrite (login_inserts ENV v st s qc qe w code a r p)
        by (assumption || apply passes_unlogged; exact Hu).
      rewrite length_app. cbn. lia.
    + eapply no_googleId_appends; [apply handle_frame | exact Hno].
    + eapply effect_unlogged; [apply handle_effect | exact Hu].
Qed.

(** Were the key of the condition a declared path, the created document
    would match it and a second find-or-create would find it. *)
Lemma created_matches m k x n :
  existsb (String.eqb k) (schema m) = true ->
  matches [(k, x)] (Doc n (strict (schema m) [(k, x)])) = true.
Proof.
  intros Hk. unfold strict, matches, get_path. cbn. rewrite Hk. cbn.
  rewrite String.eqb_refl. cbn. rewrite String.eqb_refl. reflexivity.
Qed.

Lemma find_app_matching (f : document -> bool) l d :
  f d = true -> exists d', List.find f (l ++ [d])%list = Some d' /\ f d' = true.
Proof.
  intros Hd. induction l as [|x l IH]; cbn.
  - rewrite Hd. eauto.
  - destruct (f x) eqn:E; eauto.
Qed.

Lemma findOrCreate_declared_key_idempotent m k x w c :
  existsb (String.eqb k) (schema m) = true ->
  find_fault w = None -> save_fault w = None ->
  exists d, yielded m [(k, x)] w (snd (yielded m [(k, x)] w c))
            = ((None, VObj d, false), snd (yielded m [(k, x)] w c)).
Proof.
  intros Hk Hf Hs. rewrite (yielded_unfold m [(k, x)] w c), Hf, Hs.
  destruct (List.find (matches [(k, x)]) (users (app c))) as [d|] eqn:E; cbn [snd].
  - exists d. rewrite yielded_unfold, Hf, E. reflexivity.
  - destruct (find_app_matching (matches [(k, x)]) (users (app c))
                (Doc (next_id (app c)) (strict (schema m) [(k, x)]))
                (created_matches m k x _ Hk)) as (d' & Hfind & _).
    exists d'. rewrite yielded_unfold, Hf.
    cbn [app users set_app set_users set_next_id]. rewrite Hfind. reflexivity.
Qed.


(** ** The statements of the specification *)

(** C1, evaluated at the failing input.  From an empty collection, two
    granted callbacks for the same Google identity ([profile.id] "108")
    leave two User documents: the second find-or-create on [googleId] does
    not find the document the first one created, because that document has
    no [googleId] path. *)
Theorem repeated_login_creates_second_user (v : variant) :
  let st1 :=
    snd (handle sample_env v empty
           (GET "/auth/google/callback" 7 (Some "code-1") None) granting) in
  let st2 :=
    snd (handle sample_env v st1
           (GET "/auth/google/callback" 7 (Some "code-2") None) granting) in
  users st1 = [Doc 0 []] /\ users st2 = [Doc 0 []; Doc 1 []].
Proof. destruct v; vm_compute; split; reflexivity. Qed.


(** C2, evaluated on both variants.  In the first variant the handler of
    [/logout] takes no parameter, [req] is unbound in its body, and every
    request to [/logout] ends in the error page for
    [ReferenceError: req is not defined] with the session left as it was.
    In the second variant the handler receives [(req, res)]: on a store
    whose session holds no user the request is redirected to [/] and the
    session is left without a user. *)
Theorem logout_fails_in_first_variant ENV st s qc qe w :
  handle ENV first st (GET "/logout" s qc qe) w
  = (error_page (ReferenceError "req"), st)
  /\ handle ENV second (set_sessions (delete s) st) (GET "/logout" s qc qe) w
  = (redirect 302 (url "/"), set_sessions (delete s) st).
Proof.
  split.
  - apply logout_first_serves. reflexivity.
  - rewrite logout_second_serves
      by (apply (passes_deleted second st (GET "/logout" s qc qe)) || reflexivity).
    unfold set_sessions. cbn. rewrite delete_delete_eq. reflexivity.
Qed.

(** C3.  Session serialization is the identity round trip: for every user
    object [u], [serializeUser] hands [u] itself to its callback,
    [deserializeUser] hands back exactly what it is given, and
    deserializing what was serialized yields [u] with no error on either
    side.  In the first variant, which registers the two functions, the
    same holds through Passport's own wrappers for a user document. *)
Theorem session_serialization_round_trip :
  (forall (U : Type) (u : U),
      serializeUser u (fun _ stored => stored) = u /\
      deserializeUser u (fun _ restored => restored) = u /\
      serializeUser u (fun e stored =>
        deserializeUser stored (fun e' u' => (e, e', u'))) = (None, None, u)) /\
  (forall ENV d w c,
      Passport.serializeUser (passport ENV first) (VObj d) (fun e stored =>
        Passport.deserializeUser (passport ENV first) stored (fun e' u' =>
          ret (e, e', u'))) w c
      = (Return (None, None, VObj d), c)).
Proof. split; intros; repeat split; reflexivity. Qed.



(** Instances of the four ways a callback can end. *)
Example callback_granted :
  handle sample_env first empty
    (GET "/auth/google/callback" 7 (Some "code-1") None) granting
  = (redirect 302 (url "/"),
     {| users := [Doc 0 []]; next_id := 1;
        sessions := <[7 := VObj (Doc 0 [])]> ∅ |}).
Proof. vm_compute. reflexivity. Qed.

Example callback_denied :
  handle sample_env first empty
    (GET "/auth/google/callback" 7 None (Some "access_denied")) granting
  = (redirect 302 (url "/"), empty).
Proof. vm_compute. reflexivity. Qed.

Example callback_refused :
  handle sample_env first empty
    (GET "/auth/google/callback" 7 (Some "code-1") None) refusing
  = (error_page (TokenError "invalid_grant"), empty).
Proof. vm_compute. reflexivity. Qed.

Example callback_database_down :
  handle sample_env first empty
    (GET "/auth/google/callback" 7 (Some "code-1") None) database_down
  = (error_page (MongoError "connection lost"), empty).
Proof. vm_compute. reflexivity. Qed.


(** A granted callback in the second variant: the document is written,
    but no function is registered to serialize the user, so the login
    fails and no session user is set. *)
Example callback_granted_second :
  handle sample_env second empty
    (GET "/auth/google/callback" 7 (Some "code-1") None) granting
  = (error_page not_serialized,
     {| users := [Doc 0 []]; next_id := 1; sessions := ∅ |}).
Proof. vm_compute. reflexivity. Qed.

(** A request to [/auth/google] that carries a granted code: the document
    is written, the session is set, and no later route answers. *)
Example login_route_with_code :
  handle sample_env first empty
    (GET "/auth/google" 7 (Some "code-1") None) granting
  = (send_status 404,
     {| users := [Doc 0 []]; next_id := 1;
        sessions := <[7 := VObj (Doc 0 [])]> ∅ |}).
Proof. vm_compute. reflexivity. Qed.

(** A request to [/auth/google] that carries [error=access_denied]: no
    redirect is configured for a failure on this route. *)
Example login_route_with_error :
  handle sample_env first empty
    (GET "/auth/google" 7 None (Some "access_denied")) granting
  = (send_status 401, empty).
Proof. vm_compute. reflexivity. Qed.

(** C5.  The verify callback hands to [done] exactly what find-or-create
    yields for the condition [{ googleId: profile.id }]: the error value
    and the user value, unexamined and unmodified, and nothing else
    happens.  In particular a query error reaches [done] with an undefined
    user, and a save error reaches it with the unsaved document. *)
Theorem verify_passes_result_to_done :
  (forall (R : Type) a r p (done : option JS.error -> value -> M R) w c,
      verify a r p done w c =
      let '((err, u, _), c') :=
        yielded User [("googleId", Profile.id p)] w c in
      done err u w c') /\
  (forall (R : Type) a r p (done : option JS.error -> value -> M R) prov e sf c,
      let w := {| provider := prov; find_fault := Some e; save_fault := sf |} in
      verify a r p done w c = done (Some e) VUndefined w c) /\
  (forall (R : Type) a r p (done : option JS.error -> value -> M R) prov e n ss rq u o,
      let w := {| provider := prov; find_fault := None; save_fault := Some e |} in
      let c := {| app := {| users := []; next_id := n; sessions := ss |};
                  req := rq; user := u; res := o |} in
      verify a r p done w c =
      done (Some e) (VObj (Doc n [])) w (set_app (set_next_id (S n)) c)).
Proof.
  split; [|split]; intros.
  - apply verify_yields.
  - rewrite verify_yields, yielded_User. reflexivity.
  - rewrite verify_yields, yielded_User. reflexivity.
Qed.


(** C6.  In the first variant every request to [/] renders the view
    [layout] with the single input [user], the session user or
    [undefined], and changes nothing.  The page shows the login link when
    [user] is falsy and the heading, the payload and the logout link when
    it is truthy; with no session user the first is shown, with a User
    document in the session the second.  In the second variant a request
    to [/] in a session without a user renders the same view with [user]
    undefined and shows the login link. *)
Theorem home_renders_layout_by_truthiness ENV docs n ss s qc qe w :
  let st := {| users := docs; next_id := n; sessions := ss |} in
  let u := session_user ss s in
  handle ENV first st (GET "/" s qc qe) w = (render "layout" [("user", u)], st) /\
  View.page (fst (handle ENV first st (GET "/" s qc qe) w)) =
    Some (View.h1 "GOOGLE LOGIN USING PASSPORT" ::
          if truthy u
          then [ View.h2 " Below is the data sent by google";
                 View.pre (View.property u "fb");
                 View.a "/logout" "Logout" ]
          else [ View.a "/auth/google" "Login with Google" ]) /\
  View.page (fst (handle ENV first (set_sessions (delete s) st)
                    (GET "/" s qc qe) w)) =
    Some [ View.h1 "GOOGLE LOGIN USING PASSPORT";
           View.a "/auth/google" "Login with Google" ] /\
  (forall d,
      View.page (fst (handle ENV first (set_sessions (insert s (VObj d)) st)
                        (GET "/" s qc qe) w)) =
      Some [ View.h1 "GOOGLE LOGIN USING PASSPORT";
             View.h2 " Below is the data sent by google";
             View.pre (get_path d "fb");
             View.a "/logout" "Logout" ]) /\
  handle ENV second (set_sessions (delete s) st) (GET "/" s qc qe) w
  = (render "layout" [("user", VUndefined)], set_sessions (delete s) st) /\
  View.page (fst (handle ENV second (set_sessions (delete s) st)
                    (GET "/" s qc qe) w)) =
    Some [ View.h1 "GOOGLE LOGIN USING PASSPORT";
           View.a "/auth/google" "Login with Google" ].
Proof.
  cbn zeta.
  assert (forall v st, passes v (set_sessions (delete s) st) (GET "/" s qc qe) = true)
    as Hd by (intros v st; apply (passes_deleted v st (GET "/" s qc qe))).
  rewrite !(home_serves ENV first) by reflexivity.
  rewrite !(home_serves ENV second) by (apply Hd || reflexivity).
  cbn [fst sessions set_sessions sid GET].
  assert (session_user (delete s ss) s = VUndefined) as E
      by (unfold session_user; rewrite lookup_delete_eq; reflexivity).
  rewrite E. repeat split.
  intros d. rewrite (home_serves ENV first) by reflexivity.
  cbn [fst sessions set_sessions sid GET].
  unfold session_user. rewrite lookup_insert_eq. reflexivity.
Qed.

(** C7, evaluated at the failing input.  After a first granted callback
    for the identity "108", a second granted callback for the same
    identity does not read the existing document: its find-or-create
    reports a newly created document, which is added to the collection
    while the first document stays in it unchanged; in the first variant
    the new document replaces the first as the session user. *)
Theorem second_login_does_not_read_existing_user (v : variant) :
  let login := GET "/auth/google/callback" 7 (Some "code-1") None in
  let st1 := snd (handle sample_env v empty login granting) in
  let st2 := snd (handle sample_env v st1 login granting) in
  let st1' := snd (handle sample_env first empty login granting) in
  let st2' := snd (handle sample_env first st1' login granting) in
  fst (yielded User [("googleId", "108")] granting (entering st1 login))
    = (None, VObj (Doc 1 []), true) /\
  users st1 !! 0 = Some (Doc 0 []) /\
  users st2 !! 0 = Some (Doc 0 []) /\
  users st2 !! 1 = Some (Doc 1 []) /\
  sessions st1' !! 7 = Some (VObj (Doc 0 [])) /\
  sessions st2' !! 7 = Some (VObj (Doc 1 [])).
Proof. destruct v; vm_compute; repeat split; reflexivity. Qed.

(** C8, as amended.  A request to [/auth/google] that carries neither a
    code nor an error parameter is redirected to the provider's
    authorization page with the fixed scope [email], and creates no local
    state: the User collection, the sessions and the rest of the store are
    what they were.  This holds in the first variant on every store, and
    in the second for a session that holds no user. *)
Theorem login_route_initiates ENV st s qc qe w :
  given qc = None -> given qe = None ->
  handle ENV first st (GET "/auth/google" s qc qe) w =
  (redirect 302 (authorize_url
     {| response_type := "code";
        redirect_uri := "http://127.0.0.1:3000/auth/google/callback";
        scope_param := Some "email";
        client_id := GOOGLE_CLIENT_ID ENV |}),
   st) /\
  handle ENV second (set_sessions (delete s) st) (GET "/auth/google" s qc qe) w =
  (redirect 302 (authorize_url
     {| response_type := "code";
        redirect_uri := "http://www.localhost:3000/auth/google/callback";
        scope_param := Some "email";
        client_id := GOOGLE_CLIENT_ID ENV |}),
   set_sessions (delete s) st).
Proof.
  intros Hqc Hqe. split.
  - rewrite login_route_serves by reflexivity.
    rewrite googleStrategy_ends, restored_req.
    cbn [entering GET req query_error query_code]. rewrite Hqe, Hqc.
    cbn. rewrite restored_app. reflexivity.
  - rewrite login_route_serves
      by (apply (passes_deleted second st (GET "/auth/google" s qc qe))
          || reflexivity).
    rewrite googleStrategy_ends, restored_req.
    cbn [entering GET req query_error query_code]. rewrite Hqe, Hqc.
    cbn. rewrite restored_app. reflexivity.
Qed.

Lemma login_route_initiates_witness :
  handle sample_env first empty (GET "/auth/google" 7 None None) granting =
  (redirect 302 (authorize_url
     {| response_type := "code";
        redirect_uri := "http://127.0.0.1:3000/auth/google/callback";
        scope_param := Some "email";
        client_id := "client-id" |}),
   empty).
Proof.
  apply (login_route_initiates sample_env empty 7 None None granting);
    reflexivity.
Defined.

(** C8 as stated fails: a request to [/auth/google] that carries a code is
    handled by the same strategy as a callback; when the provider grants
    the code a User document is written and the session user is set. *)
Lemma login_route_can_create_state : ~ login_route_only_redirects.
Proof.
  intros H.
  destruct (H sample_env first empty
              (GET "/auth/google" 7 (Some "code-1") None)
              granting eq_refl) as [Hst _].
  vm_compute in Hst. discriminate Hst.
Qed.


(** C9.  [serializeUser] and [deserializeUser] call back with a null
    error for every input.  Restoring the session user consults neither
    the User collection nor the outside world: in every state the program
    can reach, whatever the collection is replaced with (the empty one
    included), a request to [/] is rendered with exactly the value stored
    in its session as the user; and in the first variant a document held
    by the session is the user of the page whatever the collection holds. *)
Theorem session_user_never_revalidated :
  (forall (U : Type) (u : U),
      serializeUser u (fun err _ => err) = None /\
      deserializeUser u (fun err _ => err) = None) /\
  (forall ENV v trace docs s qc qe w,
      let st := run ENV v empty trace in
      fst (handle ENV v (set_users (fun _ => docs) st) (GET "/" s qc qe) w)
      = render "layout" [("user", default VUndefined (sessions st !! s))]) /\
  (forall ENV docs n ss s d qc qe w,
      fst (handle ENV first
             {| users := docs; next_id := n; sessions := <[s := VObj d]> ss |}
             (GET "/" s qc qe) w)
      = render "layout" [("user", VObj d)]).
Proof.
  split; [|split].
  - intros. split; reflexivity.
  - intros. rewrite home_serves.
    + cbn [fst sessions set_users sid GET].
      rewrite session_user_truthy; [reflexivity|].
      apply (reachable_truthy ENV v trace).
    + apply passes_unlogged.
      pose proof (reachable_unlogged ENV v trace) as H.
      destruct v; [exact I | exact H].
    + reflexivity.
  - intros. rewrite home_serves by reflexivity. cbn [fst sessions sid GET].
    unfold session_user. rewrite lookup_insert_eq. reflexivity.
Qed.

(** C10.  The verify callback persists nothing of the Google response.
    Its find-or-create condition is [{ googleId: profile.id }] alone; the
    access token, the refresh token and the rest of the profile have no
    influence on what it does; and every document a request adds to the
    collection has no path set at all: neither [googleId] nor any of
    [google.id], [google.access_token] and [google.email]. *)
Theorem verify_persists_nothing :
  (forall (R : Type) a r p (done : option JS.error -> value -> M R),
      verify a r p done =
      findOrCreate User [("googleId", Profile.id p)] (fun err u _ => done err u)) /\
  (forall (R : Type) a r a' r' i name mails name' mails'
          (done : option JS.error -> value -> M R),
      verify a r {| Profile.id := i; Profile.displayName := name;
                    Profile.emails := mails |} done =
      verify a' r' {| Profile.id := i; Profile.displayName := name';
                      Profile.emails := mails' |} done) /\
  (forall ENV v st rq w,
      exists added,
        users (snd (handle ENV v st rq w)) = (users st ++ added)%list /\
        Forall (fun d => blank d /\
                         get_path d "googleId" = None /\
                         get_path d "google.id" = None /\
                         get_path d "google.access_token" = None /\
                         get_path d "google.email" = None) added).
Proof.
  split; [|split]; try reflexivity.
  intros. destruct (handle_frame ENV v st rq w) as (added & Heq & Hb).
  exists added. split; [exact Heq|].
  eapply Forall_impl; [exact Hb|].
  intros d Hd. split; [exact Hd|].
  unfold get_path. rewrite Hd. repeat split; reflexivity.
Qed.

(** ** Further properties of the application *)

(** X1.  Login followed by the home page, in the first variant.  In any
    state the program can reach, a callback whose code the provider grants
    (database healthy) appends one document to the collection, and the
    next request to [/] in the same session is rendered with that document
    as [user] and shows the logged-in page; the home request itself
    changes nothing. *)
Theorem login_then_home_shows_user
        ENV trace s qc qe w code a r p qc' qe' w' :
  given qe = None -> given qc = Some code ->
  provider w code = granted a r p ->
  find_fault w = None -> save_fault w = None ->
  let st := run ENV first empty trace in
  let st1 := snd (handle ENV first st (GET "/auth/google/callback" s qc qe) w) in
  let d := Doc (next_id st) [] in
  users st1 = (users st ++ [d])%list /\
  handle ENV first st1 (GET "/" s qc' qe') w'
  = (render "layout" [("user", VObj d)], st1) /\
  View.page (fst (handle ENV first st1 (GET "/" s qc' qe') w'))
  = Some [ View.h1 "GOOGLE LOGIN USING PASSPORT";
           View.h2 " Below is the data sent by google";
           View.pre None;
           View.a "/logout" "Logout" ].
Proof.
  intros Hqe Hqc Hp Hf Hs. cbn zeta.
  rewrite (login_creates ENV _ s qc qe w code a r p
             (reachable_no_googleId ENV first trace) Hqe Hqc Hp Hf Hs).
  cbn [snd users]. rewrite home_serves by reflexivity.
  cbn [sessions fst sid GET].
  unfold session_user. rewrite lookup_insert_eq. cbn.
  repeat split; reflexivity.
Qed.

Lemma login_then_home_shows_user_witness :
  handle sample_env first
    (snd (handle sample_env first empty
            (GET "/auth/google/callback" 7 (Some "code-1") None) granting))
    (GET "/" 7 None None) refusing
  = (render "layout" [("user", VObj (Doc 0 []))],
     snd (handle sample_env first empty
            (GET "/auth/google/callback" 7 (Some "code-1") None) granting)).
Proof.
  apply (login_then_home_shows_user sample_env [] 7 (Some "code-1") None
           granting "code-1" "access-1" "refresh-1" alice None None refusing);
    reflexivity.
Defined.

(** X2.  Logout followed by the home page, in the second variant, for a
    session that holds no user.  The request to [/logout] redirects to [/]
    and leaves the store as it is, and the next request to [/] in that
    session is rendered with [user] undefined and shows the login link. *)
Theorem logout_then_home_shows_login ENV st s qc qe w qc' qe' w' :
  let st0 := set_sessions (delete s) st in
  handle ENV second st0 (GET "/logout" s qc qe) w
  = (redirect 302 (url "/"), st0) /\
  handle ENV second st0 (GET "/" s qc' qe') w'
  = (render "layout" [("user", VUndefined)], st0) /\
  View.page (fst (handle ENV second st0 (GET "/" s qc' qe') w'))
  = Some [ View.h1 "GOOGLE LOGIN USING PASSPORT";
           View.a "/auth/google" "Login with Google" ].
Proof.
  cbn zeta.
  rewrite logout_second_serves
    by (apply (passes_deleted second st (GET "/logout" s qc qe)) || reflexivity).
  rewrite !home_serves
    by (apply (passes_deleted second st (GET "/" s qc' qe')) || reflexivity).
  cbn [sessions set_sessions fst sid GET].
  unfold session_user. rewrite lookup_delete_eq. cbn.
  repeat split; try reflexivity.
  unfold set_sessions. cbn. rewrite delete_delete_eq. reflexivity.
Qed.




(** X4.  A path that matches no registered route is answered 404 and
    changes nothing.  Routes are matched without regard to letter case and
    to one trailing slash, so the path must differ from the four routes
    in that sense.  This holds in the first variant on every store, and in
    the second for a session that holds no user. *)
Theorem unregistered_path_not_found ENV st rq w :
  ~ In (normal (path rq))
       [normal "/auth/google"; normal "/auth/google/callback";
        normal "/logout"; normal "/"] ->
  handle ENV first st rq w = (send_status 404, st) /\
  handle ENV second (set_sessions (delete (sid rq)) st) rq w
  = (send_status 404, set_sessions (delete (sid rq)) st).
Proof.
  intros H.
  assert (normal (path rq) <> "/auth/google" /\
          normal (path rq) <> "/auth/google/callback" /\
          normal (path rq) <> "/logout" /\ normal (path rq) <> "")
    as (H1 & H2 & H3 & H4).
  { repeat split; intros E; apply H; rewrite E; cbn; auto. }
  split; apply unknown_route_serves;
    try assumption; [reflexivity | apply passes_deleted].
Qed.

Lemma unregistered_path_not_found_witness :
  handle sample_env first empty (GET "/profile" 7 (Some "code-1") None) granting
  = (send_status 404, empty).
Proof.
  apply (unregistered_path_not_found sample_env empty
           (GET "/profile" 7 (Some "code-1") None) granting).
  vm_compute. intros [H|[H|[H|[H|[]]]]]; discriminate H.
Defined.

(** X5.  Nothing is written without a grant.  When the provider does not
    grant the code a request carries (or the request carries none), the
    request writes no document and gives no session a user: the store is
    left as it was, or, for a logout, with the session user removed. *)
Theorem nothing_written_without_grant ENV v st rq w :
  (forall code a r p,
      given (query_code rq) = Some code -> provider w code <> granted a r p) ->
  snd (handle ENV v st rq w) = st \/
  snd (handle ENV v st rq w) = set_sessions (delete (sid rq)) st.
Proof.
  intros H.
  assert (forall options,
             exists a, googleStrategy ENV v options w (restored (entering st rq))
                       = (Return a, restored (entering st rq)) /\
                       forall u, a <> success u) as Hg.
  { intros options. apply googleStrategy_ungranted.
    rewrite restored_req. exact H. }
  destruct (passes v st rq) eqn:Hp.
  2:{ destruct v; [discriminate Hp|].
      left. rewrite handle_blocked by exact Hp. reflexivity. }
  destruct (route_cases rq) as [Hn | [Hn | [Hn | [Hn | (H1 & H2 & H3 & H4)]]]].
  - left. rewrite login_route_serves by assumption.
    destruct (Hg login_options) as (a & -> & Ha).
    destruct a as [u| | | |]; cbn [snd]; try (rewrite restored_app; reflexivity).
    destruct (Ha u eq_refl).
  - left. rewrite callback_serves by assumption.
    destruct (Hg callback_options) as (a & -> & Ha).
    destruct a as [u| | | |]; cbn [snd]; try (rewrite restored_app; reflexivity).
    destruct (Ha u eq_refl).
  - destruct v.
    + left. rewrite logout_first_serves by assumption. reflexivity.
    + right. rewrite logout_second_serves by assumption. reflexivity.
  - left. rewrite home_serves by assumption. reflexivity.
  - left. rewrite unknown_route_serves by assumption. reflexivity.
Qed.

Lemma nothing_written_without_grant_witness :
  snd (handle sample_env first empty
         (GET "/auth/google/callback" 7 (Some "code-1") None) refusing) = empty \/
  snd (handle sample_env first empty
         (GET "/auth/google/callback" 7 (Some "code-1") None) refusing)
  = set_sessions (delete 7) empty.
Proof.
  apply (nothing_written_without_grant sample_env first empty
           (GET "/auth/google/callback" 7 (Some "code-1") None) refusing).
  intros code a r p _. cbn. discriminate.
Defined.

(** X6.  As long as no code is granted, the two variants of [app.js]
    differ only in [/logout] and in the callback URL.  For a session that
    holds no user, on every request that does not reach [/logout] they
    leave the same store and send the same response, except that a
    redirect to the provider names each variant's own callback URL. *)
Theorem variants_agree_outside_logout ENV st rq w :
  normal (path rq) <> normal "/logout" ->
  (forall code a r p,
      given (query_code rq) = Some code -> provider w code <> granted a r p) ->
  let st0 := set_sessions (delete (sid rq)) st in
  snd (handle ENV first st0 rq w) = snd (handle ENV second st0 rq w) /\
  same_but_callback_url (fst (handle ENV first st0 rq w))
                        (fst (handle ENV second st0 rq w)).
Proof.
  intros Hpath Hgrant. cbn zeta.
  set (st0 := set_sessions (delete (sid rq)) st).
  assert (forall v, passes v st0 rq = true) as Hp
      by (intros v; apply passes_deleted).
  assert (forall options,
             (googleStrategy ENV first options w (restored (entering st0 rq))
              = googleStrategy ENV second options w (restored (entering st0 rq)) /\
              forall u c', googleStrategy ENV second options w
                             (restored (entering st0 rq))
                           <> (Return (success u), c')) \/
             forall v,
               googleStrategy ENV v options w (restored (entering st0 rq))
               = (Return (redirect_to (provider_page ENV v (scope options))),
                  restored (entering st0 rq))) as Hg.
  { intros options.
    destruct (given (query_error (req (restored (entering st0 rq))))) eqn:He;
      [left|destruct (given (query_code (req (restored (entering st0 rq)))))
              eqn:Hc; [left|right]].
    - split; [apply googleStrategy_same_in_variants; left; congruence|].
      intros u c' E.
      destruct (googleStrategy_ungranted ENV second options w
                  (restored (entering st0 rq))) as (a & Ea & Ha).
      { rewrite restored_req. exact Hgrant. }
      rewrite Ea in E. injection E as E _. apply (Ha u E).
    - split; [apply googleStrategy_same_in_variants; right; congruence|].
      intros u c' E.
      destruct (googleStrategy_ungranted ENV second options w
                  (restored (entering st0 rq))) as (a & Ea & Ha).
      { rewrite restored_req. exact Hgrant. }
      rewrite Ea in E. injection E as E _. apply (Ha u E).
    - intros v. apply googleStrategy_provider_page; assumption. }
  destruct (route_cases rq) as [Hn | [Hn | [Hn | [Hn | (H1 & H2 & H3 & H4)]]]].
  - rewrite !login_route_serves by (apply Hp || exact Hn).
    destruct (Hg login_options) as [[-> Hns] | H].
    + destruct (googleStrategy ENV second login_options w _) as [[a|e] c'];
        [destruct a as [u| | | |]|];
        try (split; [reflexivity | left; reflexivity]).
      destruct (Hns u c' eq_refl).
    + rewrite !H. cbn [fst snd]. split; [reflexivity|].
      right. do 2 eexists. repeat split; reflexivity.
  - rewrite !callback_serves by (apply Hp || exact Hn).
    destruct (Hg callback_options) as [[-> Hns] | H].
    + destruct (googleStrategy ENV second callback_options w _) as [[a|e] c'];
        [destruct a as [u| | | |]|];
        try (split; [reflexivity | left; reflexivity]).
      destruct (Hns u c' eq_refl).
    + rewrite !H. cbn [fst snd]. split; [reflexivity|].
      right. do 2 eexists. repeat split; reflexivity.
  - destruct (Hpath Hn).
  - rewrite !home_serves by (apply Hp || exact Hn).
    split; [reflexivity | left; reflexivity].
  - rewrite !unknown_route_serves by (apply Hp || assumption).
    split; [reflexivity | left; reflexivity].
Qed.

Lemma variants_agree_outside_logout_witness :
  snd (handle sample_env first empty
         (GET "/auth/google/callback" 7 (Some "code-1") None) refusing)
  = snd (handle sample_env second empty
           (GET "/auth/google/callback" 7 (Some "code-1") None) refusing).
Proof.
  apply (variants_agree_outside_logout sample_env empty
           (GET "/auth/google/callback" 7 (Some "code-1") None) refusing).
  - vm_compute. discriminate.
  - intros code a r p _. cbn. discriminate.
Defined.

(** X7.  In every state the program can reach from the empty store, the
    user of every session is a document that is in the User collection. *)
Theorem session_users_are_stored_documents ENV v trace s u :
  sessions (run ENV v empty trace) !! s = Some u ->
  exists d, u = VObj d /\ In d (users (run ENV v empty trace)).
Proof.
  apply (run_stored ENV v trace empty).
  intros k x H. cbn in H. rewrite lookup_empty in H. discriminate H.
Qed.

Lemma session_users_are_stored_documents_witness :
  exists d,
    VObj (Doc 0 []) = VObj d /\
    In d (users (run sample_env first empty
                   [(GET "/auth/google/callback" 7 (Some "code-1") None, granting)])).
Proof.
  apply (session_users_are_stored_documents sample_env first
           [(GET "/auth/google/callback" 7 (Some "code-1") None, granting)] 7).
  vm_compute. reflexivity.
Defined.


(** X8.  Every request is answered, and only in these ways: a redirect to
    [/], a redirect to the provider's authorization page with the
    variant's callback URL and the client id of the environment, the view
    [layout] with the single input [user], 401, 404, or the error page.
    No request is left without a response and no redirect goes anywhere
    else. *)
Theorem every_response_is_an_answer ENV v st rq w :
  answer ENV v (fst (handle ENV v st rq w)) /\
  fst (handle ENV v st rq w) <> pending.
Proof.
  assert (answer ENV v (fst (handle ENV v st rq w))) as H.
  { unfold answer.
    destruct (passes v st rq) eqn:Hp.
    2:{ destruct v; [discriminate Hp|].
        rewrite handle_blocked by exact Hp. cbn [fst]. eauto 10. }
    destruct (route_cases rq) as [Hn | [Hn | [Hn | [Hn | (H1 & H2 & H3 & H4)]]]].
    - rewrite login_route_serves by assumption.
      pose proof (googleStrategy_redirects ENV v login_options w
                    (restored (entering st rq))) as Hr.
      destruct (googleStrategy ENV v login_options w _) as [[a|e] c'];
        [destruct a as [u| |location| |e]|]; cbn [fst];
        try (destruct v; cbn [fst]); eauto 10;
        rewrite (Hr location c' eq_refl); eauto 10.
    - rewrite callback_serves by assumption.
      pose proof (googleStrategy_redirects ENV v callback_options w
                    (restored (entering st rq))) as Hr.
      destruct (googleStrategy ENV v callback_options w _) as [[a|e] c'];
        [destruct a as [u| |location| |e]|]; cbn [fst];
        try (destruct v; cbn [fst]); eauto 10;
        rewrite (Hr location c' eq_refl); eauto 10.
    - destruct v.
      + rewrite logout_first_serves by assumption. cbn [fst]. eauto 10.
      + rewrite logout_second_serves by assumption. cbn [fst]. eauto 10.
    - rewrite home_serves by assumption. cbn [fst]. eauto 10.
    - rewrite unknown_route_serves by assumption. cbn [fst]. eauto 10. }
  split; [exact H|].
  intros E. rewrite E in H. unfold answer in H.
  destruct H as [H|[[x H]|[[x H]|[H|[H|[x H]]]]]]; discriminate H.
Qed.

(** X9.  Each granted login adds one document.  From any state the program
    can reach, [n] callbacks granted for one and the same identity (database
    healthy) leave [n] more documents in the collection. *)
Theorem granted_logins_add_one_document_each
        ENV v trace s qc qe w code a r p n :
  given qe = None -> given qc = Some code ->
  provider w code = granted a r p ->
  find_fault w = None -> save_fault w = None ->
  let st := run ENV v empty trace in
  length (users (run ENV v st
            (repeat (GET "/auth/google/callback" s qc qe, w) n)))
  = length (users st) + n.
Proof.
  intros Hqe Hqc Hp Hf Hs. cbn zeta.
  apply (repeated_logins_count ENV v s qc qe w code a r p n Hqe Hqc Hp Hf Hs).
  - apply reachable_no_googleId.
  - apply reachable_unlogged.
Qed.

Lemma granted_logins_add_one_document_each_witness :
  length (users (run sample_env first (run sample_env first empty [])
            (repeat (GET "/auth/google/callback" 7 (Some "code-1") None,
                     granting) 3)))
  = length (users (run sample_env first empty [])) + 3.
Proof.
  apply (granted_logins_add_one_document_each sample_env first [] 7
           (Some "code-1") None granting "code-1" "access-1" "refresh-1" alice 3);
    reflexivity.
Defined.


(** X10.  A database failure during a granted callback.  When the lookup
    fails, the callback is answered with the error page for that very
    error and the store is left as it was (in the first variant on every
    store, in the second for a session that holds no user).  When the
    lookup succeeds but the save fails, in a state the program can reach,
    the answer is again the error page for that error, no document is
    written and no session gets a user. *)
Theorem database_failure_during_callback :
  (forall ENV st s ch rest e sf a r p,
      let w := {| provider := fun _ => granted a r p;
                  find_fault := Some e; save_fault := sf |} in
      handle ENV first st
        (GET "/auth/google/callback" s (Some (String ch rest)) None) w
      = (error_page e, st) /\
      handle ENV second (set_sessions (delete s) st)
        (GET "/auth/google/callback" s (Some (String ch rest)) None) w
      = (error_page e, set_sessions (delete s) st)) /\
  (forall ENV v trace s ch rest e a r p,
      let st := run ENV v empty trace in
      let w := {| provider := fun _ => granted a r p;
                  find_fault := None; save_fault := Some e |} in
      let out := handle ENV v st
                   (GET "/auth/google/callback" s (Some (String ch rest)) None) w in
      fst out = error_page e /\
      users (snd out) = users st /\
      sessions (snd out) = sessions st).
Proof.
  split; intros.
  - subst w.
    assert (forall v st0,
               passes v st0
                 (GET "/auth/google/callback" s (Some (String ch rest)) None) = true ->
               handle ENV v st0
                 (GET "/auth/google/callback" s (Some (String ch rest)) None)
                 {| provider := fun _ => granted a r p;
                    find_fault := Some e; save_fault := sf |}
               = (error_page e, st0)) as H.
    { intros v st0 Hp. rewrite callback_serves by (exact Hp || reflexivity).
      rewrite googleStrategy_ends, restored_req.
      cbn [entering GET req query_error query_code given provider String.eqb].
      rewrite yielded_User. cbn. rewrite restored_app. reflexivity. }
    split; apply H; [reflexivity|].
    apply (passes_deleted second st
             (GET "/auth/google/callback" s (Some (String ch rest)) None)).
  - subst out w st.
    rewrite callback_serves
      by (apply passes_unlogged, reachable_unlogged || reflexivity).
    rewrite googleStrategy_ends, restored_req.
    cbn [entering GET req query_error query_code given provider String.eqb].
    rewrite yielded_User. cbn [find_fault save_fault].
    rewrite restored_app. cbn [entering app].
    rewrite (find_no_googleId _ _ (reachable_no_googleId ENV v trace)).
    cbn. rewrite restored_app. repeat split; reflexivity.
Qed.

Lemma first_variant_keeps_session ENV st rq w s :
  is_Some (sessions st !! s) ->
  is_Some (sessions (snd (handle ENV first st rq w)) !! s).
Proof.
  intros H.
  assert (forall u, is_Some (<[sid rq := u]> (sessions st) !! s)) as Hins.
  { intros u. destruct (decide (sid rq = s)) as [<-|Hne].
    - rewrite lookup_insert_eq. eauto.
    - rewrite lookup_insert_ne by exact Hne. exact H. }
  destruct (handle_effect ENV first st rq w);
    cbn [sessions set_sessions set_next_id inserted];
    try discriminate; try exact H; apply Hins.
Qed.

(** X11.  In the first variant a session, once it has a user, has one for
    good: no sequence of requests, [/logout] included, removes it (a later
    login can only replace it). *)
Theorem first_variant_never_logs_out ENV trace :
  forall st s,
    is_Some (sessions st !! s) ->
    is_Some (sessions (run ENV first st trace) !! s).
Proof.
  induction trace as [|[rq w] rest IH]; intros st s H; cbn [run].
  - exact H.
  - apply IH. apply first_variant_keeps_session. exact H.
Qed.

Lemma first_variant_never_logs_out_witness :
  is_Some
    (sessions
       (run sample_env first
          (snd (handle sample_env first empty
                  (GET "/auth/google/callback" 7 (Some "code-1") None) granting))
          [ (GET "/logout" 7 None None, granting);
            (GET "/logout" 7 None None, refusing) ]) !! 7).
Proof.
  apply (first_variant_never_logs_out sample_env).
  vm_compute. eauto.
Defined.


(** X12.  The two OAuth routes act on the store alike.  For every request,
    sending it to [/auth/google] or to [/auth/google/callback] leaves the
    same store: a code the provider grants logs the session in on either
    route.  The routes differ in the response only. *)
Theorem oauth_routes_share_their_effect ENV v st s qc qe w :
  snd (handle ENV v st (GET "/auth/google" s qc qe) w)
  = snd (handle ENV v st (GET "/auth/google/callback" s qc qe) w).
Proof.
  destruct (passes v st (GET "/auth/google" s qc qe)) eqn:Hp.
  2:{ destruct v; [discriminate Hp|].
      rewrite !handle_blocked by exact Hp. reflexivity. }
  rewrite login_route_serves by (exact Hp || reflexivity).
  rewrite callback_serves by (exact Hp || reflexivity).
  set (c1 := restored (entering st (GET "/auth/google" s qc qe))).
  set (c2 := restored (entering st (GET "/auth/google/callback" s qc qe))).
  destruct (googleStrategy_reads ENV v login_options callback_options w c1 c2)
    as [Happ Hsucc].
  { unfold c1, c2. rewrite !restored_app. reflexivity. }
  { unfold c1, c2. rewrite !restored_req. reflexivity. }
  { unfold c1, c2. rewrite !restored_req. reflexivity. }
  destruct (googleStrategy_outcome ENV v login_options w c1)
    as (a1 & c1' & E1 & _ & Hreq1 & _).
  destruct (googleStrategy_outcome ENV v callback_options w c2)
    as (a2 & c2' & E2 & _ & Hreq2 & _).
  rewrite E1, E2 in *. cbn [fst snd] in *.
  assert (sid (req c1') = sid (req c2')) as Hsid.
  { rewrite Hreq1, Hreq2. unfold c1, c2. rewrite !restored_req. reflexivity. }
  assert (forall u, app (logged_in u c1') = app (logged_in u c2')) as Hin.
  { intros u. unfold logged_in. cbn. rewrite Happ, Hsid. reflexivity. }
  destruct a1 as [u1| | | |].
  - pose proof (proj1 (Hsucc u1) eq_refl) as E. injection E as ->.
    destruct v; cbn [snd]; [apply Hin | exact Happ].
  - destruct a2 as [u2| | | |]; try exact Happ.
    discriminate (proj2 (Hsucc u2) eq_refl).
  - destruct a2 as [u2| | | |]; try exact Happ.
    discriminate (proj2 (Hsucc u2) eq_refl).
  - destruct a2 as [u2| | | |]; try exact Happ.
    discriminate (proj2 (Hsucc u2) eq_refl).
  - destruct a2 as [u2| | | |]; try exact Happ.
    discriminate (proj2 (Hsucc u2) eq_refl).
Qed.

Lemma handle_adds_at_most_one ENV v st rq w :
  length (users (snd (handle ENV v st rq w))) <= S (length (users st)).
Proof.
  destruct (handle_effect ENV v st rq w);
    cbn [users set_sessions set_next_id inserted];
    rewrite ?length_app; cbn; lia.
Qed.

Lemma run_adds_at_most_one_each ENV v trace :
  forall st,
    length (users (run ENV v st trace)) <= length (users st) + length trace.
Proof.
  induction trace as [|[rq w] rest IH]; intros st; cbn [run length].
  - lia.
  - specialize (IH (snd (handle ENV v st rq w))).
    pose proof (handle_adds_at_most_one ENV v st rq w). lia.
Qed.

(** X13.  Stored documents are never updated or deleted.  After any
    sequence of requests a document of the collection is still there, at
    the same position and with the same content, and the collection has
    grown by at most one document per request. *)
Theorem documents_never_updated_or_deleted ENV v trace st i d :
  users st !! i = Some d ->
  users (run ENV v st trace) !! i = Some d /\
  length (users (run ENV v st trace)) <= length (users st) + length trace.
Proof.
  intros H. split.
  - eapply appends_lookup; [apply (run_frame ENV v trace st) | exact H].
  - apply run_adds_at_most_one_each.
Qed.

Lemma documents_never_updated_or_deleted_witness :
  let st := snd (handle sample_env second empty
                   (GET "/auth/google/callback" 3 (Some "code-1") None) granting) in
  let trace := [ (GET "/auth/google/callback" 3 (Some "code-2") None, granting);
                 (GET "/logout" 3 None None, granting);
                 (GET "/auth/google" 7 (Some "code-3") None, granting) ] in
  users (run sample_env second st trace) !! 0 = Some (Doc 0 []) /\
  length (users (run sample_env second st trace)) <= length (users st) + length trace.
Proof.
  cbn zeta. apply (documents_never_updated_or_deleted sample_env second).
  vm_compute. reflexivity.
Defined.

